(** * The TeamCity reporter of Catch2 (catch_reporter_teamcity.cpp)

    A shallow embedding of the reporter: its text helpers ([escape],
    [normalizeNamespaceMarkers], [fileNameTag]), the reporter object with its
    three stacks, and one function per event handler.  Handlers that can hit
    undefined behaviour, a failed [assert] or a [CATCH_ERROR] return in an
    error monad. *)

From Stdlib Require Import String Ascii List Arith Lia Bool NArith.
From Stdlib Require Import DecimalString.
From Equations Require Import Equations.
Import ListNotations.

Open Scope list_scope.
Open Scope string_scope.

(** ** Characters and std::string operations *)

Definition LF : ascii := "010"%char.
Definition CR : ascii := "013"%char.
Definition DQUOTE : ascii := "034"%char.

Definition chr (c : ascii) : string := String c EmptyString.

(** [std::string::find(pat, pos)]; [None] is [npos]. *)
Definition find (str pat : string) (pos : nat) : option nat :=
  index pos pat str.

(** [std::string::substr(pos, n)] for [pos <= size]. *)
Definition substr (str : string) (pos n : nat) : string :=
  substring pos n str.

(** [std::string::replace(pos, n, by)] for [pos <= size]: the characters
    [pos .. pos+n) (as many as exist) give way to [by]. *)
Definition replace (str : string) (pos n : nat) (by_ : string) : string :=
  substring 0 pos str ++ by_ ++ substring (pos + n) (String.length str - (pos + n)) str.

(** Character-wise substitution, the shape every step of [escape] has. *)
Fixpoint flat_map_string (f : ascii -> string) (s : string) : string :=
  match s with
  | EmptyString => EmptyString
  | String c s' => f c ++ flat_map_string f s'
  end.

Fixpoint forallb_string (p : ascii -> bool) (s : string) : bool :=
  match s with
  | EmptyString => true
  | String c s' => p c && forallb_string p s'
  end.

(** ** Helpers of catch_string_manip that the reporter calls *)

Fixpoint replaceInPlace_from (replaceThis withThis : string) (skip : nat)
         (str : string) : string :=
  match str with
  | EmptyString => EmptyString
  | String c rest =>
      match skip with
      | S k => replaceInPlace_from replaceThis withThis k rest
      | O =>
          if prefix replaceThis str
          then withThis ++
               replaceInPlace_from replaceThis withThis
                                   (String.length replaceThis - 1) rest
          else String c (replaceInPlace_from replaceThis withThis 0 rest)
      end
  end.

(** Modelled from the spec: [replaceInPlace] lives in catch_string_manip,
    outside this translation unit.  Section 4.1 of the specification describes each
    step of the escaper as one substitution [x -> y] applied to the whole
    text; the model replaces every occurrence of [replaceThis], found left to
    right and not overlapping, by [withThis].  It is only ever called with a
    one-character pattern. *)
Definition replaceInPlace (str replaceThis withThis : string) : string :=
  match replaceThis with
  | EmptyString => str
  | _ => replaceInPlace_from replaceThis withThis 0 str
  end.

(** ** The anonymous namespace of the reporter *)

Module Tag.
Record t := { original : string }.
End Tag.

Definition isFileNameTag (tag : Tag.t) : bool :=
  match Tag.original tag with
  | EmptyString => false
  | String c _ => Ascii.eqb c "#"
  end.

(** [fileNameTag]: [std::find_if] for the first tag that starts with [#],
    then everything after that character. *)
Definition fileNameTag (tags : list Tag.t) : string :=
  match List.find isFileNameTag tags with
  | Some it => substr (Tag.original it) 1 (String.length (Tag.original it) - 1)
  | None => EmptyString
  end.

(** The result of a call together with the equation that says so; it lets a
    recursive definition remember where a position came from. *)
Definition inspect {A : Type} (a : A) : {b : A | a = b} := exist _ a eq_refl.

(** [normalizeNamespaceMarkers]: the loop
    [pos = find("::"); while (pos != npos) { replace(pos, 2, "."); pos += 1;
    pos = find("::", pos); }], written with the search at the head of each
    round; [from] is the position the next search starts at. *)
Equations? normalizeNamespaceMarkers_from (str : string) (from : nat) : string
  by wf (String.length str - from) lt :=
  normalizeNamespaceMarkers_from str from with inspect (find str "::" from) := {
    | exist _ None _ => str
    | exist _ (Some pos) e =>
        normalizeNamespaceMarkers_from (replace str pos 2 ".") (pos + 1) }.
Proof.
  assert (Hfound : from <= pos /\ pos + 2 <= String.length str).
  { clear normalizeNamespaceMarkers_from. unfold find in e.
    revert from pos e.
    induction str as [|c str IH]; intros n m H.
    - destruct n; discriminate.
    - destruct n; cbn [index] in H.
      + destruct (prefix "::" (String c str)) eqn:Hp.
        * injection H as <-. split; [lia|].
          cbn [prefix] in Hp. destruct (ascii_dec ":" c); [|discriminate].
          destruct str; [discriminate|]. cbn [String.length]. lia.
        * destruct (index 0 "::" str) eqn:Hi; [|discriminate].
          injection H as <-. apply IH in Hi. cbn [String.length]. lia.
      + destruct (index n "::" str) eqn:Hi; [|discriminate].
        injection H as <-. apply IH in Hi. cbn [String.length]. lia. }
  destruct Hfound as [Hle Hlen].
  assert (Hsub : forall (s : string) n m,
             n + m <= String.length s -> String.length (substring n m s) = m).
  { clear. induction s as [|c s IH]; intros n m H; simpl in *.
    - destruct n, m; simpl; lia.
    - destruct n.
      + destruct m; simpl; [reflexivity|]. rewrite IH; lia.
      + apply IH. lia. }
  assert (Happ : forall a b : string,
             String.length (a ++ b) = String.length a + String.length b).
  { clear. induction a; simpl; auto. }
  unfold replace. rewrite !Happ, !Hsub by lia.
  simpl. lia.
Qed.

Definition normalizeNamespaceMarkers (str : string) : string :=
  normalizeNamespaceMarkers_from str 0.

(** [escape]: six calls to [replaceInPlace], in this order. *)
Definition escape (str : string) : string :=
  let escaped := str in
  let escaped := replaceInPlace escaped "|" "||" in
  let escaped := replaceInPlace escaped "'" "`" in
  let escaped := replaceInPlace escaped (chr LF) ("|" ++ "n") in
  let escaped := replaceInPlace escaped (chr CR) ("|" ++ "r") in
  let escaped := replaceInPlace escaped "[" "|[" in
  let escaped := replaceInPlace escaped "]" "|]" in
  escaped.

(** ** The data the event source hands over *)

Module SourceLineInfo.
Record t := { file : string; line : nat }.
End SourceLineInfo.

Module TestRunInfo.
Record t := { name : string }.
End TestRunInfo.

Module TestRunStats.
Record t := { runInfo : TestRunInfo.t }.
End TestRunStats.

Module TestCaseInfo.
(** [okToFail] is what the method [okToFail()] answers. *)
Record t := {
  name : string;
  className : string;
  tags : list Tag.t;
  okToFail : bool;
  lineInfo : SourceLineInfo.t }.
End TestCaseInfo.

Module TestCaseStats.
Record t := { testInfo : TestCaseInfo.t; stdOut : string; stdErr : string }.
End TestCaseStats.

Module SectionInfo.
Record t := { name : string; lineInfo : SourceLineInfo.t }.
End SectionInfo.

Module SectionStats.
Record t := { sectionInfo : SectionInfo.t }.
End SectionStats.

Module ResultWas.
Inductive OfType :=
| Unknown | Ok | Info | Warning | ExplicitSkip | FailureBit
| ExpressionFailed | ExplicitFailure | Exception | ThrewException
| DidntThrowException | FatalErrorCondition.

Definition eqb (a b : OfType) : bool :=
  match a, b with
  | Unknown, Unknown | Ok, Ok | Info, Info | Warning, Warning
  | ExplicitSkip, ExplicitSkip | FailureBit, FailureBit
  | ExpressionFailed, ExpressionFailed | ExplicitFailure, ExplicitFailure
  | Exception, Exception | ThrewException, ThrewException
  | DidntThrowException, DidntThrowException
  | FatalErrorCondition, FatalErrorCondition => true
  | _, _ => false
  end.
End ResultWas.

Module AssertionResult.
(** What the accessors of an assertion result answer. *)
Record t := {
  isOk : bool;
  getResultType : ResultWas.OfType;
  getSourceInfo : SourceLineInfo.t;
  hasExpression : bool;
  getExpressionInMacro : string;
  getExpandedExpression : string }.
End AssertionResult.

Module MessageInfo.
Record t := { message : string }.
End MessageInfo.

Module AssertionStats.
Record t := {
  assertionResult : AssertionResult.t;
  infoMessages : list MessageInfo.t }.
End AssertionStats.

Module IConfig.
Record t := { name : string }.
End IConfig.

(** ** Collaborators the reporter only calls

    The console helpers that lay out the section header are outside the
    reporter; it only inserts what they return into the failure message. *)
Class ConsoleHelpers : Type := {
  (** [lineOfChars(c)] as streamed *)
  lineOfChars : ascii -> string;
  (** [TextFlow::Column(text).indent(i).initialIndent(j)] as streamed *)
  Column : string -> nat -> nat -> string;
  (** [operator<<] of a [SourceLineInfo] *)
  streamLineInfo : SourceLineInfo.t -> string }.

(** Modelled from the spec: the [Timer] of catch_timer lives outside this
    translation unit.  A timer is the clock reading taken by [start()];
    [getElapsedMilliseconds()] is the distance from it to the clock reading
    at the call, never negative.  Clock readings are in milliseconds and are
    an input of every handler that looks at the clock. *)
Module Timer.
Record t := { m_started : N }.
Definition start (now : N) : t := {| m_started := now |}.
Definition getElapsedMilliseconds (timer : t) (now : N) : N :=
  (now - m_started timer)%N.
End Timer.

(** [operator<<] of an unsigned number: its decimal digits. *)
Definition streamUnsigned (n : N) : string :=
  NilZero.string_of_uint (N.to_uint n).

(** ** The output stream

    [m_stream] is a buffered stream.  The model keeps the text as the list of
    the lines written, each with its line feed, split into what a [flush()]
    has already handed over and what still sits in the buffer. *)
Module ostream.
Record t := { flushed : list string; buffered : list string }.

Definition put (text : string) (os : t) : t :=
  {| flushed := flushed os; buffered := (buffered os ++ [text])%list |}.

Definition flush (os : t) : t :=
  {| flushed := (flushed os ++ buffered os)%list; buffered := [] |}.

(** Everything written so far, in order. *)
Definition str (os : t) : list string := (flushed os ++ buffered os)%list.
End ostream.

(** ** Failure of a handler *)

Inductive Failure :=
| UndefinedBehaviour (what : string)
| AssertFailed (what : string)
| CatchError (msg : string).

Definition Outcome (A : Type) : Type := (Failure + A)%type.

Definition ret {A : Type} (a : A) : Outcome A := inr a.
Definition throw {A : Type} (f : Failure) : Outcome A := inl f.
Definition bind {A B : Type} (m : Outcome A) (k : A -> Outcome B) : Outcome B :=
  match m with
  | inl f => inl f
  | inr a => k a
  end.

Declare Scope outcome_scope.
Delimit Scope outcome_scope with outcome.
Notation "x <- m ;; k" := (bind m (fun x => k))
  (at level 61, m at next level, right associativity) : outcome_scope.
Open Scope outcome_scope.

(** ** std::stack and std::vector, with their preconditions *)

Definition stack_top {A : Type} (what : string) (s : list A) : Outcome A :=
  match s with
  | [] => throw (UndefinedBehaviour what)
  | x :: _ => ret x
  end.

Definition stack_pop {A : Type} (what : string) (s : list A) : Outcome (list A) :=
  match s with
  | [] => throw (UndefinedBehaviour what)
  | _ :: s' => ret s'
  end.

Definition stack_push {A : Type} (x : A) (s : list A) : list A := x :: s.

Definition vector_push_back {A : Type} (x : A) (v : list A) : list A :=
  (v ++ [x])%list.

Definition vector_pop_back {A : Type} (what : string) (v : list A)
  : Outcome (list A) :=
  match v with
  | [] => throw (UndefinedBehaviour what)
  | _ => ret (removelast v)
  end.

(** ** The reporter object *)

Record TeamCityReporter := {
  m_stream : ostream.t;
  m_config : IConfig.t;
  (** members of [StreamingReporterBase] *)
  currentTestCaseInfo : option TestCaseInfo.t;
  m_sectionStack : list SectionInfo.t;
  (** members of [TeamCityReporter] *)
  m_headerPrintedForThisSection : bool;
  m_testTimer : Timer.t;
  m_timerStack : list Timer.t;
  m_sectionNameStack : list string;
  m_lastTestCaseName : string;
  m_lastTestCaseFullName : string }.

Definition with_stream (f : ostream.t -> ostream.t) (r : TeamCityReporter)
  : TeamCityReporter :=
  {| m_stream := f (m_stream r);
     m_config := m_config r;
     currentTestCaseInfo := currentTestCaseInfo r;
     m_sectionStack := m_sectionStack r;
     m_headerPrintedForThisSection := m_headerPrintedForThisSection r;
     m_testTimer := m_testTimer r;
     m_timerStack := m_timerStack r;
     m_sectionNameStack := m_sectionNameStack r;
     m_lastTestCaseName := m_lastTestCaseName r;
     m_lastTestCaseFullName := m_lastTestCaseFullName r |}.

Definition with_currentTestCaseInfo (i : option TestCaseInfo.t)
           (r : TeamCityReporter) : TeamCityReporter :=
  {| m_stream := m_stream r;
     m_config := m_config r;
     currentTestCaseInfo := i;
     m_sectionStack := m_sectionStack r;
     m_headerPrintedForThisSection := m_headerPrintedForThisSection r;
     m_testTimer := m_testTimer r;
     m_timerStack := m_timerStack r;
     m_sectionNameStack := m_sectionNameStack r;
     m_lastTestCaseName := m_lastTestCaseName r;
     m_lastTestCaseFullName := m_lastTestCaseFullName r |}.

Definition with_sectionStack (v : list SectionInfo.t) (r : TeamCityReporter)
  : TeamCityReporter :=
  {| m_stream := m_stream r;
     m_config := m_config r;
     currentTestCaseInfo := currentTestCaseInfo r;
     m_sectionStack := v;
     m_headerPrintedForThisSection := m_headerPrintedForThisSection r;
     m_testTimer := m_testTimer r;
     m_timerStack := m_timerStack r;
     m_sectionNameStack := m_sectionNameStack r;
     m_lastTestCaseName := m_lastTestCaseName r;
     m_lastTestCaseFullName := m_lastTestCaseFullName r |}.

Definition with_headerPrinted (b : bool) (r : TeamCityReporter)
  : TeamCityReporter :=
  {| m_stream := m_stream r;
     m_config := m_config r;
     currentTestCaseInfo := currentTestCaseInfo r;
     m_sectionStack := m_sectionStack r;
     m_headerPrintedForThisSection := b;
     m_testTimer := m_testTimer r;
     m_timerStack := m_timerStack r;
     m_sectionNameStack := m_sectionNameStack r;
     m_lastTestCaseName := m_lastTestCaseName r;
     m_lastTestCaseFullName := m_lastTestCaseFullName r |}.

Definition with_testTimer (t : Timer.t) (r : TeamCityReporter)
  : TeamCityReporter :=
  {| m_stream := m_stream r;
     m_config := m_config r;
     currentTestCaseInfo := currentTestCaseInfo r;
     m_sectionStack := m_sectionStack r;
     m_headerPrintedForThisSection := m_headerPrintedForThisSection r;
     m_testTimer := t;
     m_timerStack := m_timerStack r;
     m_sectionNameStack := m_sectionNameStack r;
     m_lastTestCaseName := m_lastTestCaseName r;
     m_lastTestCaseFullName := m_lastTestCaseFullName r |}.

Definition with_timerStack (s : list Timer.t) (r : TeamCityReporter)
  : TeamCityReporter :=
  {| m_stream := m_stream r;
     m_config := m_config r;
     currentTestCaseInfo := currentTestCaseInfo r;
     m_sectionStack := m_sectionStack r;
     m_headerPrintedForThisSection := m_headerPrintedForThisSection r;
     m_testTimer := m_testTimer r;
     m_timerStack := s;
     m_sectionNameStack := m_sectionNameStack r;
     m_lastTestCaseName := m_lastTestCaseName r;
     m_lastTestCaseFullName := m_lastTestCaseFullName r |}.

Definition with_sectionNameStack (s : list string) (r : TeamCityReporter)
  : TeamCityReporter :=
  {| m_stream := m_stream r;
     m_config := m_config r;
     currentTestCaseInfo := currentTestCaseInfo r;
     m_sectionStack := m_sectionStack r;
     m_headerPrintedForThisSection := m_headerPrintedForThisSection r;
     m_testTimer := m_testTimer r;
     m_timerStack := m_timerStack r;
     m_sectionNameStack := s;
     m_lastTestCaseName := m_lastTestCaseName r;
     m_lastTestCaseFullName := m_lastTestCaseFullName r |}.

Definition with_lastTestCaseName (n : string) (r : TeamCityReporter)
  : TeamCityReporter :=
  {| m_stream := m_stream r;
     m_config := m_config r;
     currentTestCaseInfo := currentTestCaseInfo r;
     m_sectionStack := m_sectionStack r;
     m_headerPrintedForThisSection := m_headerPrintedForThisSection r;
     m_testTimer := m_testTimer r;
     m_timerStack := m_timerStack r;
     m_sectionNameStack := m_sectionNameStack r;
     m_lastTestCaseName := n;
     m_lastTestCaseFullName := m_lastTestCaseFullName r |}.

Definition with_lastTestCaseFullName (n : string) (r : TeamCityReporter)
  : TeamCityReporter :=
  {| m_stream := m_stream r;
     m_config := m_config r;
     currentTestCaseInfo := currentTestCaseInfo r;
     m_sectionStack := m_sectionStack r;
     m_headerPrintedForThisSection := m_headerPrintedForThisSection r;
     m_testTimer := m_testTimer r;
     m_timerStack := m_timerStack r;
     m_sectionNameStack := m_sectionNameStack r;
     m_lastTestCaseName := m_lastTestCaseName r;
     m_lastTestCaseFullName := n |}.

(** [m_stream << text] and [m_stream.flush()] *)
Definition put (text : string) : TeamCityReporter -> TeamCityReporter :=
  with_stream (ostream.put text).
Definition flush : TeamCityReporter -> TeamCityReporter :=
  with_stream ostream.flush.

(** ** The methods of StreamingReporterBase that the handlers call first *)

(** Modelled from the spec: the base streaming reporter lives outside this
    translation unit.  Its test-case start keeps the reference to the current
    test case info that the run context supplies, read-only. *)
Definition StreamingReporterBase_testCaseStarting (testInfo : TestCaseInfo.t)
  : TeamCityReporter -> TeamCityReporter :=
  with_currentTestCaseInfo (Some testInfo).

(** Modelled from the spec: the base streaming reporter lives outside this
    translation unit.  At the end of a test case the reference to the current
    test case info is dropped. *)
Definition StreamingReporterBase_testCaseEnded
  : TeamCityReporter -> TeamCityReporter :=
  with_currentTestCaseInfo None.

(** Modelled from the spec: the base streaming reporter lives outside this
    translation unit.  A section frame is created on section entry and pushed
    on the section stack, outer to inner. *)
Definition StreamingReporterBase_sectionStarting (sectionInfo : SectionInfo.t)
           (self : TeamCityReporter) : TeamCityReporter :=
  with_sectionStack (vector_push_back sectionInfo (m_sectionStack self)) self.

(** Modelled from the spec: the base streaming reporter lives outside this
    translation unit.  A section frame is destroyed on the matching section
    exit, in strict LIFO order; the pop of an empty vector is undefined. *)
Definition StreamingReporterBase_sectionEnded (self : TeamCityReporter)
  : Outcome TeamCityReporter :=
  v <- vector_pop_back "m_sectionStack.pop_back()" (m_sectionStack self) ;;
  ret (with_sectionStack v self).

(** ** The handlers *)

Section Handlers.
Context {helpers : ConsoleHelpers}.

Definition NL : string := chr LF.

(** [printHeaderString(os, _string, indent)]: the text it streams. *)
Definition printHeaderString (_string : string) (indent : nat) : string :=
  let i := match find _string ": " 0 with
           | Some i => i + 2
           | None => 0
           end in
  Column _string (indent + i) indent ++ NL.

Definition testRunStarting (runInfo : TestRunInfo.t) (self : TeamCityReporter)
  : TeamCityReporter :=
  put ("##teamcity[testSuiteStarted name='" ++ escape (TestRunInfo.name runInfo)
       ++ "']" ++ NL) self.

Definition testRunEnded (runStats : TestRunStats.t) (self : TeamCityReporter)
  : TeamCityReporter :=
  put ("##teamcity[testSuiteFinished name='"
       ++ escape (TestRunInfo.name (TestRunStats.runInfo runStats))
       ++ "']" ++ NL) self.

(** [printSectionHeader(os)]: the text it streams, or the failed [assert]. *)
Definition printSectionHeader (self : TeamCityReporter) : Outcome string :=
  match m_sectionStack self with
  | [] => throw (AssertFailed "!m_sectionStack.empty()")
  | front :: rest =>
      let os := EmptyString in
      let os :=
        if (1 <? List.length (m_sectionStack self))%nat then
          let os := os ++ lineOfChars "-" ++ NL in
          let os :=
            fold_left
              (fun os it => os ++ printHeaderString (SectionInfo.name it) 0)
              rest os in
          os ++ lineOfChars "-" ++ NL
        else os in
      let lineInfo := SectionInfo.lineInfo front in
      let os := os ++ streamLineInfo lineInfo ++ NL in
      ret (os ++ lineOfChars "." ++ NL ++ NL)
  end.

(** The text the [switch] over the result type appends to [msg]. *)
Definition resultTypeText (type : ResultWas.OfType) : Outcome string :=
  match type with
  | ResultWas.ExpressionFailed => ret "expression failed"
  | ResultWas.ThrewException => ret "unexpected exception"
  | ResultWas.FatalErrorCondition => ret "fatal error condition"
  | ResultWas.DidntThrowException =>
      ret "no exception was thrown where one was expected"
  | ResultWas.ExplicitFailure => ret "explicit failure"
  | ResultWas.ExplicitSkip => ret "explicit skip"
  | ResultWas.Ok | ResultWas.Info | ResultWas.Warning =>
      throw (CatchError "Internal error in TeamCity reporter")
  | ResultWas.Unknown | ResultWas.FailureBit | ResultWas.Exception =>
      throw (CatchError "Not implemented")
  end.

Definition assertionEnded (assertionStats : AssertionStats.t)
           (self : TeamCityReporter) : Outcome TeamCityReporter :=
  let result := AssertionStats.assertionResult assertionStats in
  if negb (AssertionResult.isOk result)
     || ResultWas.eqb (AssertionResult.getResultType result)
                      ResultWas.ExplicitSkip
  then
    msg <- (if negb (m_headerPrintedForThisSection self)
            then printSectionHeader self
            else ret EmptyString) ;;
    let self := with_headerPrinted true self in
    let msg := msg ++ streamLineInfo (AssertionResult.getSourceInfo result)
                   ++ NL in
    text <- resultTypeText (AssertionResult.getResultType result) ;;
    let msg := msg ++ text in
    let infoMessages := AssertionStats.infoMessages assertionStats in
    let msg := if (List.length infoMessages =? 1)%nat
               then msg ++ " with message:" else msg in
    let msg := if (1 <? List.length infoMessages)%nat
               then msg ++ " with messages:" else msg in
    let msg :=
      fold_left
        (fun msg messageInfo =>
           msg ++ NL ++ "  " ++ chr DQUOTE ++ MessageInfo.message messageInfo
               ++ chr DQUOTE)
        infoMessages msg in
    let failedDetail :=
      if AssertionResult.hasExpression result
      then AssertionResult.getExpressionInMacro result ++ NL
           ++ AssertionResult.getExpandedExpression result
      else EmptyString in
    let self := put ("result failed:" ++ escape msg ++ NL) self in
    let flowId := match m_sectionNameStack self with
                  | [] => m_lastTestCaseFullName self
                  | top :: _ => top
                  end in
    match currentTestCaseInfo self with
    | None => throw (UndefinedBehaviour "currentTestCaseInfo->name")
    | Some info =>
        let self :=
          if ResultWas.eqb (AssertionResult.getResultType result)
                           ResultWas.ExplicitSkip
          then
            let self := put ("ResultWas::ExplicitSkip" ++ NL) self in
            put ("##teamcity[testIgnored"
                 ++ " name='" ++ escape (TestCaseInfo.name info) ++ "'"
                 ++ " message='" ++ escape msg
                 ++ "' flowId='" ++ flowId ++ "']" ++ NL) self
          else if TestCaseInfo.okToFail info
          then
            let self := put ("ResultWas::okToFail" ++ NL) self in
            let msg :=
              msg ++ "- failure ignore as test marked as 'ok to fail'" ++ NL in
            put ("##teamcity[testIgnored"
                 ++ " name='" ++ escape (TestCaseInfo.name info) ++ "'"
                 ++ " message='" ++ escape msg
                 ++ "' flowId='" ++ flowId ++ "']" ++ NL) self
          else
            let self := put ("ResultWas::testFailed" ++ NL) self in
            put ("##teamcity[testFailed"
                 ++ " name='" ++ escape (TestCaseInfo.name info) ++ "'"
                 ++ " message='" ++ escape msg ++ "'"
                 ++ " details='" ++ escape failedDetail ++ "'"
                 ++ " flowId='" ++ flowId ++ "']" ++ NL) self
        in
        ret (flush self)
    end
  else ret (flush self).

(** The class name [testCaseStarting] puts in front of the test name:
    the declared class name without its spaces, else the file-name tag,
    else [global.]; the configuration name in front when there is one;
    namespace markers normalised last. *)
Definition testCaseStarting_className (testInfo : TestCaseInfo.t)
           (config : IConfig.t) : string :=
  let className := TestCaseInfo.className testInfo in
  let className :=
    flat_map_string
      (fun c => if Ascii.eqb c " " then EmptyString else chr c) className in
  let className :=
    match className with
    | EmptyString =>
        let className := fileNameTag (TestCaseInfo.tags testInfo) in
        match className with
        | EmptyString => "global."
        | _ => className
        end
    | _ => className
    end in
  let className :=
    match IConfig.name config with
    | EmptyString => className
    | _ => IConfig.name config ++ ": " ++ IConfig.name config ++ "."
           ++ className
    end in
  normalizeNamespaceMarkers className.

Definition testCaseStarting (testInfo : TestCaseInfo.t) (now : N)
           (self : TeamCityReporter) : TeamCityReporter :=
  let self := StreamingReporterBase_testCaseStarting testInfo self in
  let self := with_testTimer (Timer.start now) self in
  let testcaseName := escape (TestCaseInfo.name testInfo) in
  let self := with_lastTestCaseName testcaseName self in
  let self := with_lastTestCaseFullName testcaseName self in
  let className := testCaseStarting_className testInfo (m_config self) in
  let self := with_lastTestCaseFullName (escape (className ++ testcaseName))
                                        self in
  let self := put ("testCaseStarting:" ++ testcaseName ++ " FullName:"
                   ++ m_lastTestCaseFullName self ++ NL) self in
  let self := put ("##teamcity[testStarted name='"
                   ++ m_lastTestCaseFullName self ++ "' " ++ "flowId='"
                   ++ m_lastTestCaseFullName self ++ "' ]" ++ NL) self in
  flush self.

Definition testCaseEnded (testCaseStats : TestCaseStats.t) (now : N)
           (self : TeamCityReporter) : TeamCityReporter :=
  let self := StreamingReporterBase_testCaseEnded self in
  let testCaseInfo := TestCaseStats.testInfo testCaseStats in
  let testcaseName := escape (TestCaseInfo.name testCaseInfo) in
  let self := put ("testCaseEnded:" ++ testcaseName ++ " FullName:"
                   ++ m_lastTestCaseFullName self ++ NL) self in
  let self :=
    match TestCaseStats.stdOut testCaseStats with
    | EmptyString => self
    | _ => put ("##teamcity[testStdOut name='"
                ++ m_lastTestCaseFullName self
                ++ "' out='" ++ escape (TestCaseStats.stdOut testCaseStats)
                ++ "' " ++ "flowId='" ++ m_lastTestCaseFullName self
                ++ "']" ++ NL) self
    end in
  let self :=
    match TestCaseStats.stdErr testCaseStats with
    | EmptyString => self
    | _ => put ("##teamcity[testStdErr name='"
                ++ m_lastTestCaseFullName self
                ++ "' out='" ++ escape (TestCaseStats.stdErr testCaseStats)
                ++ "' " ++ "flowId='" ++ m_lastTestCaseFullName self
                ++ "']" ++ NL) self
    end in
  let self := put ("##teamcity[testFinished name='"
                   ++ m_lastTestCaseFullName self ++ "' duration='"
                   ++ streamUnsigned
                        (Timer.getElapsedMilliseconds (m_testTimer self) now)
                   ++ "' " ++ "flowId='" ++ m_lastTestCaseFullName self
                   ++ "']" ++ NL) self in
  flush self.

Definition sectionStarting (sectionInfo : SectionInfo.t) (now : N)
           (self : TeamCityReporter) : TeamCityReporter :=
  if String.eqb (m_lastTestCaseName self) (SectionInfo.name sectionInfo)
  then self
  else
    let newTimer := Timer.start now in
    let self := with_timerStack (stack_push newTimer (m_timerStack self))
                                self in
    let self := with_headerPrinted true self in
    let self := StreamingReporterBase_sectionStarting sectionInfo self in
    let testname := escape (SectionInfo.name sectionInfo) in
    let testname :=
      match m_sectionNameStack self with
      | top :: _ => escape (top ++ "/" ++ SectionInfo.name sectionInfo)
      | [] => escape (m_lastTestCaseFullName self ++ "/"
                      ++ SectionInfo.name sectionInfo)
      end in
    let self := with_sectionNameStack
                  (stack_push testname (m_sectionNameStack self)) self in
    let self := put ("sectionStarting:" ++ testname ++ NL) self in
    let self := put ("##teamcity[testStarted name='" ++ testname ++ "' "
                     ++ "flowId='" ++ testname ++ "']" ++ NL) self in
    flush self.

Definition sectionEnded (sectionStats : SectionStats.t) (now : N)
           (self : TeamCityReporter) : Outcome TeamCityReporter :=
  if String.eqb (m_lastTestCaseName self)
                (SectionInfo.name (SectionStats.sectionInfo sectionStats))
  then ret self
  else
    self <- StreamingReporterBase_sectionEnded self ;;
    newTimer <- stack_top "m_timerStack.top()" (m_timerStack self) ;;
    match m_sectionNameStack self with
    | [] =>
        let self := put ("something wrong!!!" ++ NL) self in
        ret (flush self)
    | top :: _ =>
        let testname := escape top in
        let self := put ("sectionEnded:" ++ testname ++ NL) self in
        let self := put ("##teamcity[testFinished name='"
                         ++ testname ++ "' duration='"
                         ++ streamUnsigned
                              (Timer.getElapsedMilliseconds newTimer now)
                         ++ "' " ++ "flowId='" ++ testname ++ "']" ++ NL)
                        self in
        let self := flush self in
        timers <- stack_pop "m_timerStack.pop()" (m_timerStack self) ;;
        let self := with_timerStack timers self in
        names <- stack_pop "m_sectionNameStack.pop()"
                           (m_sectionNameStack self) ;;
        ret (with_sectionNameStack names self)
    end.

(** ** The event source *)

Inductive Event :=
| TestRunStarting (runInfo : TestRunInfo.t)
| TestRunEnded (runStats : TestRunStats.t)
| TestCaseStarting (testInfo : TestCaseInfo.t) (now : N)
| TestCaseEnded (testCaseStats : TestCaseStats.t) (now : N)
| SectionStarting (sectionInfo : SectionInfo.t) (now : N)
| SectionEnded (sectionStats : SectionStats.t) (now : N)
| AssertionEnded (assertionStats : AssertionStats.t).

Definition handle (e : Event) (self : TeamCityReporter)
  : Outcome TeamCityReporter :=
  match e with
  | TestRunStarting runInfo => ret (testRunStarting runInfo self)
  | TestRunEnded runStats => ret (testRunEnded runStats self)
  | TestCaseStarting testInfo now => ret (testCaseStarting testInfo now self)
  | TestCaseEnded testCaseStats now =>
      ret (testCaseEnded testCaseStats now self)
  | SectionStarting sectionInfo now =>
      ret (sectionStarting sectionInfo now self)
  | SectionEnded sectionStats now => sectionEnded sectionStats now self
  | AssertionEnded assertionStats => assertionEnded assertionStats self
  end.

(** One handler at a time, to completion, in the order of the events. *)
Fixpoint run (events : list Event) (self : TeamCityReporter)
  : Outcome TeamCityReporter :=
  match events with
  | [] => ret self
  | e :: events' => self' <- handle e self ;; run events' self'
  end.

End Handlers.

(** Lines appended to the lines of a stream. *)
Infix "+++" := (@List.app string) (at level 60, right associativity)
  : string_scope.

(** ** Reference functions the handlers are compared with *)

(** The wire format's substitution of one character, as the table of the
    escaper lists it. *)
Definition escapeChar (c : ascii) : string :=
  if Ascii.eqb c "|" then "||"
  else if Ascii.eqb c "'" then "`"
  else if Ascii.eqb c LF then "|n"
  else if Ascii.eqb c CR then "|r"
  else if Ascii.eqb c "[" then "|["
  else if Ascii.eqb c "]" then "|]"
  else chr c.

(** The six substitutions of the escaper, in their order. *)
Definition escapeSubstitutions : list (string * string) :=
  [ ("|", "||"); ("'", "`"); (chr LF, "|n"); (chr CR, "|r");
    ("[", "|["); ("]", "|]") ].



(** Replacing [::] by [.] in one scan from the left, occurrences not
    overlapping: a marker is consumed whole, the scan goes on behind it. *)
Fixpoint scanNamespaceMarkers (s : string) : string :=
  match s with
  | EmptyString => EmptyString
  | String c rest =>
      match rest with
      | String d rest' =>
          if Ascii.eqb c ":" && Ascii.eqb d ":"
          then String "." (scanNamespaceMarkers rest')
          else String c (scanNamespaceMarkers rest)
      | EmptyString => String c EmptyString
      end
  end.

(** ** Observations on a reporter *)

(** All lines written so far, flushed or not. *)
Definition written (self : TeamCityReporter) : list string :=
  ostream.str (m_stream self).

(** Lines still in the buffer of the stream. *)
Definition unflushed (self : TeamCityReporter) : list string :=
  ostream.buffered (m_stream self).

(** A line of the wire protocol, as opposed to a diagnostic line. *)
Definition isServiceMessage (line : string) : bool :=
  prefix "##teamcity[" line.

Definition hasVerb (verb line : string) : bool :=
  prefix ("##teamcity[" ++ verb ++ " ") line.

(** The three stacks grow and shrink together. *)
Definition stacksAligned (self : TeamCityReporter) : Prop :=
  List.length (m_sectionStack self) = List.length (m_timerStack self)
  /\ List.length (m_timerStack self) = List.length (m_sectionNameStack self).

(** What a reset at the start of a test case would leave behind. *)
Definition resetForTestCase (self : TeamCityReporter) : Prop :=
  m_sectionStack self = [] /\ m_timerStack self = []
  /\ m_sectionNameStack self = []
  /\ m_headerPrintedForThisSection self = false.

(** The result kinds for which the failure formatter has a text. *)
Definition reportable (type : ResultWas.OfType) : bool :=
  match type with
  | ResultWas.ExpressionFailed | ResultWas.ThrewException
  | ResultWas.FatalErrorCondition | ResultWas.DidntThrowException
  | ResultWas.ExplicitFailure | ResultWas.ExplicitSkip => true
  | _ => false
  end.

(** The condition under which [assertionEnded] reports at all. *)
Definition notOkOrSkipped (assertionStats : AssertionStats.t) : bool :=
  let result := AssertionStats.assertionResult assertionStats in
  negb (AssertionResult.isOk result)
  || ResultWas.eqb (AssertionResult.getResultType result) ResultWas.ExplicitSkip.

(** The reporter is inside the test case [info]: what [testCaseStarting]
    stored for it is still there. *)
Definition insideTestCase (info : TestCaseInfo.t) (self : TeamCityReporter)
  : Prop :=
  currentTestCaseInfo self = Some info
  /\ m_lastTestCaseName self = escape (TestCaseInfo.name info)
  /\ m_lastTestCaseFullName self =
       escape (testCaseStarting_className info (m_config self)
               ++ escape (TestCaseInfo.name info)).

(** What only the test-case handlers change is the same in both reporters. *)
Definition sameTestCase (a b : TeamCityReporter) : Prop :=
  m_config a = m_config b
  /\ currentTestCaseInfo a = currentTestCaseInfo b
  /\ m_lastTestCaseName a = m_lastTestCaseName b
  /\ m_lastTestCaseFullName a = m_lastTestCaseFullName b
  /\ m_testTimer a = m_testTimer b.

(** The correlation id [assertionEnded] uses. *)
Definition currentFlowId (self : TeamCityReporter) : string :=
  match m_sectionNameStack self with
  | [] => m_lastTestCaseFullName self
  | top :: _ => top
  end.

(** The lines the specification lists for a reported assertion: the echo of
    the failure message, the echo of the branch taken, and one service
    message, which is [testIgnored] for an explicit skip, [testIgnored] with
    the ignore note appended to the message for a test case that may fail,
    and [testFailed] with the expression text as details otherwise. *)
Definition reportedLines (info : TestCaseInfo.t) (flowId msg : string)
           (result : AssertionResult.t) : list string :=
  let name := escape (TestCaseInfo.name info) in
  let details :=
    if AssertionResult.hasExpression result
    then AssertionResult.getExpressionInMacro result ++ chr LF
         ++ AssertionResult.getExpandedExpression result
    else EmptyString in
  ("result failed:" ++ escape msg ++ chr LF)
  :: (if ResultWas.eqb (AssertionResult.getResultType result)
                       ResultWas.ExplicitSkip
      then [ "ResultWas::ExplicitSkip" ++ chr LF;
             "##teamcity[testIgnored name='" ++ name ++ "' message='"
             ++ escape msg ++ "' flowId='" ++ flowId ++ "']" ++ chr LF ]
      else if TestCaseInfo.okToFail info
      then [ "ResultWas::okToFail" ++ chr LF;
             "##teamcity[testIgnored name='" ++ name ++ "' message='"
             ++ escape (msg ++ "- failure ignore as test marked as 'ok to fail'"
                            ++ chr LF)
             ++ "' flowId='" ++ flowId ++ "']" ++ chr LF ]
      else [ "ResultWas::testFailed" ++ chr LF;
             "##teamcity[testFailed name='" ++ name ++ "' message='"
             ++ escape msg ++ "' details='" ++ escape details
             ++ "' flowId='" ++ flowId ++ "']" ++ chr LF ]).

(** The events inside one test case as the event source delivers them: every
    section start is matched by the end of the same section, sections nest,
    assertions end anywhere in between. *)
Inductive wellNested : list Event -> Prop :=
| wellNested_nil : wellNested []
| wellNested_assertion (assertionStats : AssertionStats.t) (rest : list Event) :
    wellNested rest -> wellNested (AssertionEnded assertionStats :: rest)
| wellNested_section (sectionInfo : SectionInfo.t) (t1 t2 : N)
                     (body rest : list Event) :
    wellNested body -> wellNested rest ->
    wellNested
      (SectionStarting sectionInfo t1
       :: body
       ++ SectionEnded {| SectionStats.sectionInfo := sectionInfo |} t2
       :: rest)%list.

(** The three stacks of both reporters are the same. *)
Definition sameStacks (a b : TeamCityReporter) : Prop :=
  m_sectionStack a = m_sectionStack b
  /\ m_timerStack a = m_timerStack b
  /\ m_sectionNameStack a = m_sectionNameStack b.

(** ** Further observations on text and lines *)

(** Characters that may stand inside a single-quoted attribute value on one
    line: no single quote, no line feed, no carriage return. *)
Definition attributeSafe (c : ascii) : bool :=
  negb (Ascii.eqb c "'" || Ascii.eqb c LF || Ascii.eqb c CR).

Definition noLineFeed (s : string) : bool :=
  forallb_string (fun c => negb (Ascii.eqb c LF)) s.

(** A line of the stream that is one line of text: its only line feed is its
    last character. *)
Definition oneLine (line : string) : Prop :=
  exists body, line = body ++ chr LF /\ noLineFeed body = true.

(** How many of the lines are service messages with this verb. *)
Definition countVerb (verb : string) (lines : list string) : nat :=
  List.length (filter (hasVerb verb) lines).

(** The section header cannot be printed: either the flag says it was, or
    there is no section frame to print. *)
Definition headerDoneOrNoFrame (self : TeamCityReporter) : Prop :=
  m_headerPrintedForThisSection self = true \/ m_sectionStack self = [].

(** The names the reporter keeps for later messages hold no line feed. *)
Definition keptNamesOnOneLine (self : TeamCityReporter) : Prop :=
  noLineFeed (m_lastTestCaseFullName self) = true
  /\ Forall (fun name => noLineFeed name = true) (m_sectionNameStack self).

(** An event of the test run itself, above the test cases. *)
Definition isRunEvent (e : Event) : bool :=
  match e with
  | TestRunStarting _ | TestRunEnded _ => true
  | _ => false
  end.

(** The info messages of an assertion as the failure message shows them:
    each on a line of its own, indented and in double quotes, in the order
    they were given. *)
Definition quotedMessages (infoMessages : list MessageInfo.t) : string :=
  String.concat EmptyString
    (map (fun messageInfo =>
            chr LF ++ "  " ++ chr DQUOTE ++ MessageInfo.message messageInfo
            ++ chr DQUOTE)
         infoMessages).

(** The failure message of a reported assertion when no header goes in
    front: where it was, what kind of result, and the info messages behind
    the wording for one or for several. *)
Definition failureMessage {helpers : ConsoleHelpers}
           (assertionStats : AssertionStats.t) (kind : string) : string :=
  let result := AssertionStats.assertionResult assertionStats in
  let infoMessages := AssertionStats.infoMessages assertionStats in
  streamLineInfo (AssertionResult.getSourceInfo result) ++ chr LF ++ kind
  ++ match infoMessages with
     | [] => EmptyString
     | [_] => " with message:"
     | _ :: _ :: _ => " with messages:"
     end
  ++ quotedMessages infoMessages.

(** ** Whole runs *)

(** The events of a run as the event source delivers them: whole test cases,
    each its start, well-nested sections and assertions, and its end, with
    the events of the run itself before, between or after them. *)
Inductive wholeTestCases : list Event -> Prop :=
| wholeTestCases_nil : wholeTestCases []
| wholeTestCases_runStarting (runInfo : TestRunInfo.t) (rest : list Event) :
    wholeTestCases rest -> wholeTestCases (TestRunStarting runInfo :: rest)
| wholeTestCases_runEnded (runStats : TestRunStats.t) (rest : list Event) :
    wholeTestCases rest -> wholeTestCases (TestRunEnded runStats :: rest)
| wholeTestCases_testCase (testInfo : TestCaseInfo.t)
                          (testCaseStats : TestCaseStats.t) (t0 t1 : N)
                          (body rest : list Event) :
    wellNested body -> wholeTestCases rest ->
    wholeTestCases
      (TestCaseStarting testInfo t0
       :: body ++ TestCaseEnded testCaseStats t1 :: rest)%list.

(** No section is open: the three stacks are empty. *)
Definition noFrameOpen (self : TeamCityReporter) : Prop :=
  m_sectionStack self = [] /\ m_timerStack self = []
  /\ m_sectionNameStack self = [].

(** A section start that the handler does not skip, [stored] being the
    stored name of the test case. *)
Definition opensSection (stored : string) (e : Event) : bool :=
  match e with
  | SectionStarting sectionInfo _ =>
      negb (String.eqb stored (SectionInfo.name sectionInfo))
  | _ => false
  end.

(** How many sections the events open. *)
Definition openedSections (stored : string) (events : list Event) : nat :=
  List.length (filter (opensSection stored) events).

(** ** Concrete inputs *)

(** A reporter as constructed: nothing written, no test case, empty stacks.
    The initial value of the header flag is fixed by the class declaration in
    the header file, so here it is an argument. *)
Definition newReporter (config : IConfig.t) (headerPrinted : bool)
  : TeamCityReporter :=
  {| m_stream := {| ostream.flushed := []; ostream.buffered := [] |};
     m_config := config;
     currentTestCaseInfo := None;
     m_sectionStack := [];
     m_headerPrintedForThisSection := headerPrinted;
     m_testTimer := {| Timer.m_started := 0 |};
     m_timerStack := [];
     m_sectionNameStack := [];
     m_lastTestCaseName := EmptyString;
     m_lastTestCaseFullName := EmptyString |}.

Definition plainHelpers : ConsoleHelpers := {|
  lineOfChars := fun c => String c (String c (String c EmptyString));
  Column := fun text _ _ => text;
  streamLineInfo := fun info =>
    SourceLineInfo.file info ++ ":"
    ++ NilZero.string_of_uint (Nat.to_uint (SourceLineInfo.line info)) |}.

Definition noConfigName : IConfig.t := {| IConfig.name := EmptyString |}.

Definition here (n : nat) : SourceLineInfo.t :=
  {| SourceLineInfo.file := "t.cpp"; SourceLineInfo.line := n |}.

Definition testCase (name : string) : TestCaseInfo.t :=
  {| TestCaseInfo.name := name;
     TestCaseInfo.className := EmptyString;
     TestCaseInfo.tags := [];
     TestCaseInfo.okToFail := false;
     TestCaseInfo.lineInfo := here 1 |}.

Definition quietEnd (name : string) : TestCaseStats.t :=
  {| TestCaseStats.testInfo := testCase name;
     TestCaseStats.stdOut := EmptyString;
     TestCaseStats.stdErr := EmptyString |}.

Definition section (name : string) : SectionInfo.t :=
  {| SectionInfo.name := name; SectionInfo.lineInfo := here 2 |}.

Definition sectionEnd (name : string) : SectionStats.t :=
  {| SectionStats.sectionInfo := section name |}.

Definition assertion (ok : bool) (type : ResultWas.OfType) : AssertionStats.t :=
  {| AssertionStats.assertionResult :=
       {| AssertionResult.isOk := ok;
          AssertionResult.getResultType := type;
          AssertionResult.getSourceInfo := here 3;
          AssertionResult.hasExpression := true;
          AssertionResult.getExpressionInMacro := "REQUIRE( x == 1 )";
          AssertionResult.getExpandedExpression := "2 == 1" |};
     AssertionStats.infoMessages := [] |}.

(** A reporter inside the test case [t], no section open. *)
Definition insideT : TeamCityReporter :=
  testCaseStarting (testCase "t") 0 (newReporter noConfigName true).

(** A test case with one section whose name holds a vertical bar. *)
Definition oneSectionRun (sectionName : string) : list Event :=
  [ TestCaseStarting (testCase "t") 0;
    SectionStarting (section sectionName) 1;
    SectionEnded (sectionEnd sectionName) 5;
    TestCaseEnded (quietEnd "t") 9 ].

(** A test case with one section as the event source delivers it: the
    section named as the test case is started first and ended last. *)
Definition deliveredOneSection (testName sectionName : string) : list Event :=
  [ TestCaseStarting (testCase testName) 0;
    SectionStarting (section testName) 1;
    SectionStarting (section sectionName) 2;
    SectionEnded (sectionEnd sectionName) 5;
    SectionEnded (sectionEnd testName) 6;
    TestCaseEnded (quietEnd testName) 9 ].

(** The test case [t1] with a section [s], whole, as delivered. *)
Definition deliveredTestCase : list Event :=
  [ TestRunStarting {| TestRunInfo.name := "r" |};
    TestCaseStarting (testCase "t1") 0;
    SectionStarting (section "t1") 1;
    SectionStarting (section "s") 2;
    SectionEnded (sectionEnd "s") 3;
    SectionEnded (sectionEnd "t1") 4;
    TestCaseEnded (quietEnd "t1") 5 ].

(** A test case without sections whose first assertion fails, as delivered
    to a new reporter. *)
Definition plainFailingTestCase : list Event :=
  [ TestCaseStarting (testCase "t") 0;
    SectionStarting (section "t") 1;
    AssertionEnded (assertion false ResultWas.ExpressionFailed) ].

Arguments escape : simpl never.
Arguments normalizeNamespaceMarkers : simpl never.
Arguments testCaseStarting_className : simpl never.
Arguments streamUnsigned : simpl never.
Arguments Timer.getElapsedMilliseconds : simpl never.

(** * Properties *)

(** ** The helpers on small inputs *)

Example fileNameTag_first_match :
  fileNameTag [ {| Tag.original := "[fast]" |};
                {| Tag.original := "#parser" |};
                {| Tag.original := "#lexer" |} ] = "parser".
Proof. reflexivity. Qed.

Example className_declared :
  testCaseStarting_className
    {| TestCaseInfo.name := "adds";
       TestCaseInfo.className := "math :: Vector";
       TestCaseInfo.tags := [];
       TestCaseInfo.okToFail := false;
       TestCaseInfo.lineInfo := {| SourceLineInfo.file := "v.cpp";
                                   SourceLineInfo.line := 7 |} |}
    {| IConfig.name := EmptyString |}
  = "math.Vector".
Proof. reflexivity. Qed.

Example className_default_with_config :
  testCaseStarting_className
    {| TestCaseInfo.name := "adds";
       TestCaseInfo.className := EmptyString;
       TestCaseInfo.tags := [];
       TestCaseInfo.okToFail := false;
       TestCaseInfo.lineInfo := {| SourceLineInfo.file := "v.cpp";
                                   SourceLineInfo.line := 7 |} |}
    {| IConfig.name := "nightly" |}
  = "nightly: nightly.global.".
Proof. reflexivity. Qed.

(** ** Strings *)

Lemma append_nil_r (s : string) : s ++ EmptyString = s.
Proof. induction s as [|c s IH]; cbn [append]; [reflexivity | now rewrite IH]. Qed.

Lemma append_assoc (a b c : string) : (a ++ b) ++ c = a ++ (b ++ c).
Proof. induction a as [|x a IH]; cbn [append]; [reflexivity | now rewrite IH]. Qed.

Lemma length_append (a b : string) :
  String.length (a ++ b) = String.length a + String.length b.
Proof.
  induction a as [|x a IH]; cbn [append String.length Nat.add];
    [reflexivity | now rewrite IH].
Qed.

Lemma flat_map_string_app (f : ascii -> string) (a b : string) :
  flat_map_string f (a ++ b) = flat_map_string f a ++ flat_map_string f b.
Proof.
  induction a as [|x a IH]; cbn [append flat_map_string]; [reflexivity|].
  now rewrite IH, append_assoc.
Qed.

Lemma flat_map_string_compose (f g : ascii -> string) (s : string) :
  flat_map_string f (flat_map_string g s)
  = flat_map_string (fun c => flat_map_string f (g c)) s.
Proof.
  induction s as [|x s IH]; cbn [flat_map_string]; [reflexivity|].
  now rewrite flat_map_string_app, IH.
Qed.

Lemma flat_map_string_ext (f g : ascii -> string) :
  (forall c, f c = g c) -> forall s, flat_map_string f s = flat_map_string g s.
Proof.
  intros H s. induction s as [|x s IH]; cbn [flat_map_string]; [reflexivity|].
  now rewrite H, IH.
Qed.

Lemma forallb_string_app (p : ascii -> bool) (a b : string) :
  forallb_string p (a ++ b) = forallb_string p a && forallb_string p b.
Proof.
  induction a as [|x a IH]; cbn [append forallb_string]; [reflexivity|].
  now rewrite IH, andb_assoc.
Qed.

(** ** The escaper *)

(** A one-character pattern makes [replaceInPlace] a character-wise map. *)
Lemma replaceInPlace_char (p : ascii) (w str : string) :
  replaceInPlace str (chr p) w
  = flat_map_string (fun c => if Ascii.eqb p c then w else chr c) str.
Proof.
  unfold replaceInPlace, chr.
  induction str as [|c str IH]; [reflexivity|].
  cbn [replaceInPlace_from flat_map_string prefix String.length Nat.sub].
  destruct (ascii_dec p c) as [->|Hne].
  - rewrite Ascii.eqb_refl. destruct str; cbn [prefix]; now rewrite IH.
  - apply Ascii.eqb_neq in Hne. rewrite Hne. now rewrite IH.
Qed.

Lemma escape_flat_map (s : string) : escape s = flat_map_string escapeChar s.
Proof.
  unfold escape.
  change "|" with (chr "|"). change "'" with (chr "'").
  change "[" with (chr "["). change "]" with (chr "]").
  rewrite !replaceInPlace_char, !flat_map_string_compose.
  apply flat_map_string_ext.
  intros [[] [] [] [] [] [] [] []]; reflexivity.
Qed.

Lemma escape_app (a b : string) : escape (a ++ b) = escape a ++ escape b.
Proof. rewrite !escape_flat_map. apply flat_map_string_app. Qed.



Lemma escapeChar_length (c : ascii) : 1 <= String.length (escapeChar c).
Proof. destruct c as [[] [] [] [] [] [] [] []]; cbn; lia. Qed.

Lemma escape_length (s : string) : String.length s <= String.length (escape s).
Proof.
  rewrite escape_flat_map.
  induction s as [|c s IH]; cbn [flat_map_string String.length]; [lia|].
  rewrite length_append. pose proof (escapeChar_length c). lia.
Qed.

(** C7. The escaper is the six substitutions applied one after the other to
    the whole text, which comes to one substitution per character: [|] gives
    [||], ['] gives a backtick, line feed gives [|n], carriage return gives
    [|r], [[] gives [|[], []] gives [|]], and every other character stays as
    it is.  It is a total function; on [a|b'c] followed by a line feed it
    gives [a||b`c|n]. *)
Theorem escape_substitutes_six_characters :
  (forall s,
      escape s
      = fold_left (fun text sub => replaceInPlace text (fst sub) (snd sub))
                  escapeSubstitutions s)
  /\ (forall s, escape s = flat_map_string escapeChar s)
  /\ (forall c,
         In c [ "|"%char; "'"%char; LF; CR; "["%char; "]"%char ]
         \/ escapeChar c = chr c)
  /\ escape ("a|b'c" ++ chr LF) = "a||b`c|n".
Proof.
  split; [reflexivity|]. split; [exact escape_flat_map|]. split; [|reflexivity].
  intros [[] [] [] [] [] [] [] []];
    first [ right; reflexivity | left; cbn; auto 10 ].
Qed.

(** ** The namespace markers *)

Lemma index_0_cons (p : string) (c : ascii) (s : string) :
  index 0 p (String c s)
  = if prefix p (String c s) then Some 0
    else option_map S (index 0 p s).
Proof. cbn [index]. destruct (prefix p (String c s)), (index 0 p s); reflexivity. Qed.

Lemma index_skip (p a t : string) :
  index (String.length a) p (a ++ t)
  = option_map (Nat.add (String.length a)) (index 0 p t).
Proof.
  induction a as [|x a IH]; cbn [append String.length].
  - destruct (index 0 p t); reflexivity.
  - cbn [index]. rewrite IH. destruct (index 0 p t); reflexivity.
Qed.

Lemma prefix_marker (c : ascii) (s : string) :
  prefix "::" (String c s)
  = match s with
    | String d _ => Ascii.eqb c ":" && Ascii.eqb d ":"
    | EmptyString => false
    end.
Proof.
  destruct s as [|d s]; cbn [prefix].
  - now destruct (ascii_dec ":" c).
  - destruct (ascii_dec ":" c) as [<-|Hc].
    + destruct (ascii_dec ":" d) as [<-|Hd]; [now destruct s|].
      apply not_eq_sym, Ascii.eqb_neq in Hd. now rewrite Hd.
    + apply not_eq_sym, Ascii.eqb_neq in Hc. now rewrite Hc.
Qed.

Lemma scan_no_marker (t : string) :
  index 0 "::" t = None -> scanNamespaceMarkers t = t.
Proof.
  induction t as [|c t IH]; [reflexivity|].
  rewrite index_0_cons, prefix_marker. cbn [scanNamespaceMarkers].
  destruct t as [|d t]; [reflexivity|].
  destruct (Ascii.eqb c ":" && Ascii.eqb d ":"); [discriminate|].
  intros H. destruct (index 0 "::" (String d t)); [discriminate|].
  now rewrite IH.
Qed.

Lemma scan_first_marker (t : string) (q : nat) :
  index 0 "::" t = Some q ->
  exists m b, t = m ++ "::" ++ b /\ String.length m = q
              /\ scanNamespaceMarkers t = m ++ "." ++ scanNamespaceMarkers b.
Proof.
  revert q. induction t as [|c t IH]; intros q; [discriminate|].
  rewrite index_0_cons, prefix_marker. cbn [scanNamespaceMarkers].
  destruct t as [|d t]; [discriminate|].
  destruct (Ascii.eqb c ":" && Ascii.eqb d ":") eqn:Hcd.
  - intros [= <-]. apply andb_prop in Hcd as [Hc Hd].
    apply Ascii.eqb_eq in Hc, Hd. subst.
    exists EmptyString, t. repeat split.
  - intros H. destruct (index 0 "::" (String d t)) as [q'|]; [|discriminate].
    injection H as <-.
    destruct (IH q' eq_refl) as (m & b & Ht & Hm & Hs).
    exists (String c m), b. cbn [append String.length].
    rewrite Ht at 1. rewrite Hs, Hm. repeat split.
Qed.

Lemma substring_prefix (u v : string) :
  substring 0 (String.length u) (u ++ v) = u.
Proof.
  induction u as [|x u IH]; cbn [append String.length substring].
  - now destruct v.
  - now rewrite IH.
Qed.

Lemma substring_skip (u v : string) (n k : nat) :
  substring (String.length u + n) k (u ++ v) = substring n k v.
Proof. induction u as [|x u IH]; cbn [append String.length substring Nat.add]; auto. Qed.

Lemma substring_all (s : string) : substring 0 (String.length s) s = s.
Proof. rewrite <- (append_nil_r s) at 2. apply substring_prefix. Qed.

Lemma replace_marker (u b : string) :
  replace (u ++ "::" ++ b) (String.length u) 2 "." = u ++ "." ++ b.
Proof.
  unfold replace. rewrite substring_prefix, substring_skip.
  rewrite !length_append. cbn [String.length append substring].
  replace (String.length u + (2 + String.length b) - (String.length u + 2))
    with (String.length b) by lia.
  now rewrite substring_all.
Qed.

Lemma normalizeNamespaceMarkers_from_scan (str : string) (from : nat) :
  forall a t, str = a ++ t -> from = String.length a ->
              normalizeNamespaceMarkers_from str from
              = a ++ scanNamespaceMarkers t.
Proof.
  apply (normalizeNamespaceMarkers_from_elim
           (fun str from res =>
              forall a t, str = a ++ t -> from = String.length a ->
                          res = a ++ scanNamespaceMarkers t)); clear str from.
  - intros str from pos e IH _ a t -> ->.
    unfold find in e. rewrite index_skip in e.
    destruct (index 0 "::" t) as [q|] eqn:Hq; [|discriminate].
    injection e as <-.
    destruct (scan_first_marker t q Hq) as (m & b & -> & <- & ->).
    rewrite (IH (a ++ m ++ ".") b).
    + now rewrite !append_assoc.
    + rewrite <- length_append, <- (append_assoc a m ("::" ++ b)).
      rewrite replace_marker. now rewrite !append_assoc.
    + rewrite !length_append. cbn [String.length]. lia.
  - intros str from e _ a t -> ->.
    unfold find in e. rewrite index_skip in e.
    destruct (index 0 "::" t) eqn:Hq; [discriminate|].
    now rewrite scan_no_marker.
Qed.

Lemma normalizeNamespaceMarkers_scan (s : string) :
  normalizeNamespaceMarkers s = scanNamespaceMarkers s.
Proof.
  unfold normalizeNamespaceMarkers.
  now rewrite (normalizeNamespaceMarkers_from_scan s 0 EmptyString s).
Qed.

(** C6, as the code has it.  [normalizeNamespaceMarkers] is the scan from the
    left that replaces each [::] by [.] and goes on behind the replaced
    marker: [A::B::C] becomes [A.B.C], [::::] becomes [..], and in [A:::B]
    the first two colons become a dot while the third, which has no partner
    left, stays a colon: [A.:B]. *)
Theorem normalizeNamespaceMarkers_left_to_right :
  (forall s, normalizeNamespaceMarkers s = scanNamespaceMarkers s)
  /\ normalizeNamespaceMarkers "A::B::C" = "A.B.C"
  /\ normalizeNamespaceMarkers "::::" = ".."
  /\ normalizeNamespaceMarkers "A:::B" = "A.:B".
Proof.
  split; [exact normalizeNamespaceMarkers_scan|].
  rewrite !normalizeNamespaceMarkers_scan. repeat split.
Qed.

(** C6, as the specification has it, fails on its second example: three
    colons in a row do not become two dots. *)
Lemma normalizeNamespaceMarkers_three_colons :
  ~ (normalizeNamespaceMarkers "A::B::C" = "A.B.C"
     /\ normalizeNamespaceMarkers "A:::B" = "A..B").
Proof.
  intros [_ H]. rewrite normalizeNamespaceMarkers_scan in H. discriminate H.
Qed.

(** ** The stream *)

(** Equations between the lines of two streams, up to the bracketing of the
    appends. *)
Ltac stream_eq :=
  unfold written, unflushed, ostream.str;
  cbn [m_stream with_stream with_currentTestCaseInfo with_sectionStack
       with_headerPrinted with_testTimer with_timerStack with_sectionNameStack
       with_lastTestCaseName with_lastTestCaseFullName put flush
       ostream.put ostream.flush ostream.flushed ostream.buffered];
  rewrite ?app_nil_r, <- ?app_assoc; reflexivity.

Lemma written_put (text : string) (self : TeamCityReporter) :
  written (put text self) = (written self ++ [text])%list.
Proof. unfold written, ostream.str. cbn. now rewrite app_assoc. Qed.

Lemma written_flush (self : TeamCityReporter) :
  written (flush self) = written self.
Proof. unfold written, ostream.str. cbn. now rewrite app_nil_r. Qed.

Lemma unflushed_put (text : string) (self : TeamCityReporter) :
  unflushed (put text self) = (unflushed self ++ [text])%list.
Proof. reflexivity. Qed.

Lemma unflushed_flush (self : TeamCityReporter) : unflushed (flush self) = [].
Proof. reflexivity. Qed.

(** ** End of a test case *)

(** The lines [testCaseEnded] appends, and what it leaves alone. *)
Lemma testCaseEnded_written :
  forall (testCaseStats : TestCaseStats.t) (now : N) (self : TeamCityReporter),
    let full := m_lastTestCaseFullName self in
    let out := TestCaseStats.stdOut testCaseStats in
    let err := TestCaseStats.stdErr testCaseStats in
    let after := testCaseEnded testCaseStats now self in
    written after
    = written self
      +++ [ "testCaseEnded:"
            ++ escape (TestCaseInfo.name (TestCaseStats.testInfo testCaseStats))
            ++ " FullName:" ++ full ++ NL ]
      +++ (if String.eqb out EmptyString then []
           else [ "##teamcity[testStdOut name='" ++ full ++ "' out='"
                  ++ escape out ++ "' flowId='" ++ full ++ "']" ++ NL ])
      +++ (if String.eqb err EmptyString then []
           else [ "##teamcity[testStdErr name='" ++ full ++ "' out='"
                  ++ escape err ++ "' flowId='" ++ full ++ "']" ++ NL ])
      +++ [ "##teamcity[testFinished name='" ++ full ++ "' duration='"
            ++ streamUnsigned
                 (Timer.getElapsedMilliseconds (m_testTimer self) now)
            ++ "' flowId='" ++ full ++ "']" ++ NL ]
    /\ unflushed after = []
    /\ m_sectionStack after = m_sectionStack self
    /\ m_timerStack after = m_timerStack self
    /\ m_sectionNameStack after = m_sectionNameStack self.
Proof.
  intros [info out err] now self.
  cbn [TestCaseStats.stdOut TestCaseStats.stdErr TestCaseStats.testInfo].
  unfold testCaseEnded.
  cbn [TestCaseStats.stdOut TestCaseStats.stdErr TestCaseStats.testInfo].
  destruct out as [|o out], err as [|e err];
    (split; [ stream_eq | repeat split ]).
Qed.

(** C8. [testCaseEnded] writes its diagnostic line, then a [testStdOut]
    message exactly when the captured standard output is not empty, then a
    [testStdErr] message exactly when the captured standard error is not
    empty, and last, always, the [testFinished] message with the test case's
    full name as name and as flowId and the elapsed milliseconds of the test
    timer as duration. *)
Theorem testCaseEnded_messages :
  forall (testCaseStats : TestCaseStats.t) (now : N) (self : TeamCityReporter),
    let full := m_lastTestCaseFullName self in
    let out := TestCaseStats.stdOut testCaseStats in
    let err := TestCaseStats.stdErr testCaseStats in
    let finished :=
      "##teamcity[testFinished name='" ++ full ++ "' duration='"
      ++ streamUnsigned (Timer.getElapsedMilliseconds (m_testTimer self) now)
      ++ "' flowId='" ++ full ++ "']" ++ NL in
    let diagnostic :=
      "testCaseEnded:"
      ++ escape (TestCaseInfo.name (TestCaseStats.testInfo testCaseStats))
      ++ " FullName:" ++ full ++ NL in
    let stdOutMessage :=
      "##teamcity[testStdOut name='" ++ full ++ "' out='" ++ escape out
      ++ "' flowId='" ++ full ++ "']" ++ NL in
    let stdErrMessage :=
      "##teamcity[testStdErr name='" ++ full ++ "' out='" ++ escape err
      ++ "' flowId='" ++ full ++ "']" ++ NL in
    let emitted :=
      [ diagnostic ]
      +++ (if String.eqb out EmptyString then [] else [ stdOutMessage ])
      +++ (if String.eqb err EmptyString then [] else [ stdErrMessage ])
      +++ [ finished ] in
    written (testCaseEnded testCaseStats now self) = written self +++ emitted
    /\ existsb (hasVerb "testStdOut") emitted = negb (String.eqb out EmptyString)
    /\ existsb (hasVerb "testStdErr") emitted = negb (String.eqb err EmptyString)
    /\ List.length (filter (hasVerb "testFinished") emitted) = 1
    /\ last emitted EmptyString = finished.
Proof.
  intros stats now self. cbv zeta.
  split; [exact (proj1 (testCaseEnded_written stats now self))|].
  destruct stats as [info [|o out] [|e err]]; repeat split.
Qed.

(** ** Flushing *)

(** The handlers of test cases, sections and assertions leave nothing in the
    buffer when they have written something. *)
Lemma handlers_below_the_run_flush {helpers : ConsoleHelpers} :
  forall (e : Event) (self self' : TeamCityReporter),
    match e with
    | TestRunStarting _ | TestRunEnded _ => False
    | _ => True
    end ->
    handle e self = inr self' ->
    self' = self \/ unflushed self' = [].
Proof.
  intros e self self' He H. destruct e; try contradiction; cbn [handle] in H.
  - injection H as <-. now right.
  - injection H as <-. now right.
  - injection H as <-. unfold sectionStarting.
    destruct (String.eqb _ _); [now left | now right].
  - unfold sectionEnded in H.
    destruct (String.eqb _ _); [injection H as <-; now left|].
    unfold StreamingReporterBase_sectionEnded in H.
    destruct (m_sectionStack self) as [|f v]; [discriminate|].
    cbn in H. destruct (m_timerStack self) as [|t ts]; [discriminate|].
    cbn in H. destruct (m_sectionNameStack self) as [|n ns];
      cbn in H; injection H as <-; now right.
  - unfold assertionEnded in H.
    destruct (_ || _); [|injection H as <-; now right].
    destruct (if negb _ then _ else _) as [f|msg]; [discriminate|].
    cbn [bind] in H.
    destruct (resultTypeText _) as [f|text]; [discriminate|].
    cbn [bind] in H. cbn in H.
    destruct (currentTestCaseInfo self) as [info|]; [|discriminate].
    injection H as <-. now right.
Qed.

(** C9, on the code.  [testRunStarting] and [testRunEnded] write their
    message and return without a flush: the line they wrote is still in the
    buffer of the stream when the handler is done. *)
Theorem run_handlers_do_not_flush :
  forall (name : string) (self : TeamCityReporter),
    let runInfo := {| TestRunInfo.name := name |} in
    unflushed (testRunStarting runInfo self)
    = unflushed self
      +++ [ "##teamcity[testSuiteStarted name='" ++ escape name ++ "']" ++ NL ]
    /\ unflushed (testRunEnded {| TestRunStats.runInfo := runInfo |} self)
       = unflushed self
         +++ [ "##teamcity[testSuiteFinished name='" ++ escape name ++ "']"
               ++ NL ].
Proof. intros name self. split; reflexivity. Qed.

(** ** Section events under the stored name of the test case *)

(** When the name of the section is the stored name of the test case, both
    section handlers return at once: same reporter, nothing written. *)
Lemma section_of_stored_name_is_skipped :
  forall (sectionInfo : SectionInfo.t) (now : N) (self : TeamCityReporter),
    m_lastTestCaseName self = SectionInfo.name sectionInfo ->
    sectionStarting sectionInfo now self = self
    /\ sectionEnded {| SectionStats.sectionInfo := sectionInfo |} now self
       = inr self.
Proof.
  intros S now self H. unfold sectionStarting, sectionEnded.
  cbn [SectionStats.sectionInfo]. rewrite H, String.eqb_refl. now split.
Qed.

(** The stored name is the escaped one. *)
Lemma testCaseStarting_stores :
  forall (testInfo : TestCaseInfo.t) (now : N) (self : TeamCityReporter),
    insideTestCase testInfo (testCaseStarting testInfo now self).
Proof. intros. repeat split. Qed.

(** ** A section end without an open section *)

(** C3, on the code.  When the correlation-name stack is empty and the
    stacks are in step, [sectionEnded] for a section that is not the test
    case itself does not get as far as its own check for the empty stack:
    it first pops the section stack of the base class and copies
    [m_timerStack.top()], and both stacks are empty.  The handler ends in
    undefined behaviour, not in the diagnostic line. *)
Theorem sectionEnded_reads_empty_stack :
  forall (sectionStats : SectionStats.t) (now : N) (self : TeamCityReporter),
    m_lastTestCaseName self
      <> SectionInfo.name (SectionStats.sectionInfo sectionStats) ->
    m_sectionNameStack self = [] ->
    stacksAligned self ->
    exists what,
      sectionEnded sectionStats now self = inl (UndefinedBehaviour what).
Proof.
  intros stats now self Hne Hempty [Hs Ht].
  unfold sectionEnded. apply String.eqb_neq in Hne. rewrite Hne.
  rewrite Hempty in Ht. rewrite Ht in Hs.
  apply length_zero_iff_nil in Hs, Ht.
  unfold StreamingReporterBase_sectionEnded. rewrite Hs.
  eexists. reflexivity.
Qed.

Lemma sectionEnded_reads_empty_stack_witness :
  (m_lastTestCaseName insideT <> "s"
   /\ m_sectionNameStack insideT = []
   /\ stacksAligned insideT)
  /\ exists what,
      sectionEnded (sectionEnd "s") 1 insideT = inl (UndefinedBehaviour what).
Proof.
  assert (H1 : m_lastTestCaseName insideT <> "s") by discriminate.
  assert (H2 : m_sectionNameStack insideT = []) by reflexivity.
  assert (H3 : stacksAligned insideT) by (split; reflexivity).
  split; [auto|].
  exact (sectionEnded_reads_empty_stack (sectionEnd "s") 1 insideT H1 H2 H3).
Defined.

(** The timer stack alone decides: with no timer on it, the copy of its top
    is undefined whatever the other stacks hold. *)
Lemma sectionEnded_needs_a_timer :
  forall (sectionStats : SectionStats.t) (now : N) (self : TeamCityReporter),
    m_lastTestCaseName self
      <> SectionInfo.name (SectionStats.sectionInfo sectionStats) ->
    m_timerStack self = [] ->
    exists what,
      sectionEnded sectionStats now self = inl (UndefinedBehaviour what).
Proof.
  intros stats now self Hne Ht.
  unfold sectionEnded. apply String.eqb_neq in Hne. rewrite Hne.
  unfold StreamingReporterBase_sectionEnded.
  destruct (m_sectionStack self) as [|f v] eqn:Hv; [eexists; reflexivity|].
  cbn. rewrite Ht. eexists; reflexivity.
Qed.

(** The check for the empty correlation-name stack is reached only when the
    stacks are out of step, a timer and a section frame being there without
    a correlation name.  Then the handler writes its diagnostic line and
    leaves the two stacks of the reporter alone. *)
Lemma sectionEnded_out_of_step :
  forall (sectionStats : SectionStats.t) (now : N) (self : TeamCityReporter),
    m_lastTestCaseName self
      <> SectionInfo.name (SectionStats.sectionInfo sectionStats) ->
    m_sectionStack self <> [] ->
    m_timerStack self <> [] ->
    m_sectionNameStack self = [] ->
    exists after,
      sectionEnded sectionStats now self = inr after
      /\ written after = written self +++ [ "something wrong!!!" ++ NL ]
      /\ unflushed after = []
      /\ m_sectionNameStack after = []
      /\ m_timerStack after = m_timerStack self.
Proof.
  intros stats now self Hne Hv Ht Hn.
  apply String.eqb_neq in Hne. unfold sectionEnded. rewrite Hne.
  unfold StreamingReporterBase_sectionEnded.
  destruct self as [os cfg cur secs hdr timer timers names last full].
  cbn [m_sectionStack m_timerStack m_sectionNameStack] in Hv, Ht, Hn.
  subst names. destruct secs as [|f v]; [contradiction|].
  destruct timers as [|t ts]; [contradiction|].
  eexists. split; [reflexivity|]. split; [stream_eq | now repeat split].
Qed.

(** With the header flag down and no section frame on the section stack, a
    reported assertion stops at the [assert] of [printSectionHeader]. *)
Lemma assertionEnded_header_needs_section {helpers : ConsoleHelpers} :
  forall (assertionStats : AssertionStats.t) (self : TeamCityReporter),
    notOkOrSkipped assertionStats = true ->
    m_headerPrintedForThisSection self = false ->
    m_sectionStack self = [] ->
    assertionEnded assertionStats self
    = inl (AssertFailed "!m_sectionStack.empty()").
Proof.
  intros stats self Hnot Hhdr Hv. unfold assertionEnded.
  unfold notOkOrSkipped in Hnot. rewrite Hnot, Hhdr.
  unfold printSectionHeader. now rewrite Hv.
Qed.

(** ** Opening and closing a section *)

Lemma sectionStarting_opens :
  forall (sectionInfo : SectionInfo.t) (now : N) (self : TeamCityReporter),
    m_lastTestCaseName self <> SectionInfo.name sectionInfo ->
    let id := escape (currentFlowId self ++ "/" ++ SectionInfo.name sectionInfo) in
    let after := sectionStarting sectionInfo now self in
    m_sectionNameStack after = id :: m_sectionNameStack self
    /\ m_timerStack after = Timer.start now :: m_timerStack self
    /\ m_sectionStack after = (m_sectionStack self ++ [sectionInfo])%list
    /\ m_headerPrintedForThisSection after = true
    /\ written after
       = written self
         +++ [ "sectionStarting:" ++ id ++ NL;
               "##teamcity[testStarted name='" ++ id ++ "' flowId='" ++ id
               ++ "']" ++ NL ]
    /\ unflushed after = []
    /\ sameTestCase self after.
Proof.
  intros S now self Hne id after. subst id after.
  apply String.eqb_neq in Hne. unfold sectionStarting. rewrite Hne.
  unfold currentFlowId.
  destruct self as [os cfg cur secs hdr timer timers names last full].
  cbn [m_sectionNameStack m_lastTestCaseFullName with_timerStack
       with_headerPrinted StreamingReporterBase_sectionStarting
       with_sectionStack m_timerStack m_sectionStack m_stream m_config
       currentTestCaseInfo m_headerPrintedForThisSection m_testTimer
       m_lastTestCaseName].
  destruct names as [|top names];
    rewrite written_flush, !written_put, <- app_assoc;
    repeat split.
Qed.

Lemma sectionEnded_closes :
  forall (sectionStats : SectionStats.t) (now : N) (self : TeamCityReporter)
         (timer : Timer.t) (timers : list Timer.t)
         (top : string) (names : list string),
    m_lastTestCaseName self
      <> SectionInfo.name (SectionStats.sectionInfo sectionStats) ->
    m_sectionStack self <> [] ->
    m_timerStack self = timer :: timers ->
    m_sectionNameStack self = top :: names ->
    exists after,
      sectionEnded sectionStats now self = inr after
      /\ m_sectionNameStack after = names
      /\ m_timerStack after = timers
      /\ m_sectionStack after = removelast (m_sectionStack self)
      /\ m_headerPrintedForThisSection after
         = m_headerPrintedForThisSection self
      /\ written after
         = written self
           +++ [ "sectionEnded:" ++ escape top ++ NL;
                 "##teamcity[testFinished name='" ++ escape top
                 ++ "' duration='"
                 ++ streamUnsigned (Timer.getElapsedMilliseconds timer now)
                 ++ "' flowId='" ++ escape top ++ "']" ++ NL ]
      /\ unflushed after = []
      /\ sameTestCase self after.
Proof.
  intros stats now self timer timers top names Hne Hsecs Htimers Hnames.
  apply String.eqb_neq in Hne. unfold sectionEnded. rewrite Hne.
  destruct self as [os cfg cur secs hdr timer0 timers0 names0 last full].
  cbn [m_sectionStack m_timerStack m_sectionNameStack] in Hsecs, Htimers, Hnames.
  subst timers0 names0.
  unfold StreamingReporterBase_sectionEnded.
  cbn [m_sectionStack]. destruct secs as [|f v]; [contradiction|].
  cbn [vector_pop_back bind ret with_sectionStack m_timerStack stack_top
       m_sectionNameStack m_stream m_config currentTestCaseInfo
       m_headerPrintedForThisSection m_testTimer m_lastTestCaseName
       m_lastTestCaseFullName m_sectionStack].
  eexists. split; [reflexivity|].
  repeat split. stream_eq.
Qed.

(** ** The section that carries the name of its test case *)

(** C2, on the code.  The handlers compare the section name with the stored
    name of the test case, which is the escaped name.  For a test case whose
    name the escaper changes, the section events that carry the test case's
    own name are therefore not skipped: [sectionStarting] pushes a timer and
    a correlation name, sets the header flag and writes a [testStarted]
    message, and [sectionEnded] then writes the [testFinished] message and
    pops again. *)
Theorem section_named_as_test_case_not_skipped :
  forall (testInfo : TestCaseInfo.t) (lineInfo : SourceLineInfo.t)
         (t0 t1 t2 : N) (self : TeamCityReporter),
    escape (TestCaseInfo.name testInfo) <> TestCaseInfo.name testInfo ->
    let inside := testCaseStarting testInfo t0 self in
    let sectionInfo := {| SectionInfo.name := TestCaseInfo.name testInfo;
                          SectionInfo.lineInfo := lineInfo |} in
    let id := escape (currentFlowId inside ++ "/" ++ TestCaseInfo.name testInfo) in
    let opened := sectionStarting sectionInfo t1 inside in
    (m_sectionNameStack opened = id :: m_sectionNameStack inside
     /\ m_timerStack opened = Timer.start t1 :: m_timerStack inside
     /\ m_headerPrintedForThisSection opened = true
     /\ written opened
        = written inside
          +++ [ "sectionStarting:" ++ id ++ NL;
                "##teamcity[testStarted name='" ++ id ++ "' flowId='" ++ id
                ++ "']" ++ NL ])
    /\ exists closed,
        sectionEnded {| SectionStats.sectionInfo := sectionInfo |} t2 opened
        = inr closed
        /\ m_sectionNameStack closed = m_sectionNameStack inside
        /\ written closed
           = written opened
             +++ [ "sectionEnded:" ++ escape id ++ NL;
                   "##teamcity[testFinished name='" ++ escape id
                   ++ "' duration='" ++ streamUnsigned (t2 - t1)
                   ++ "' flowId='" ++ escape id ++ "']" ++ NL ].
Proof.
  intros testInfo lineInfo t0 t1 t2 self Hne inside sectionInfo id opened.
  assert (Hne1 : m_lastTestCaseName inside <> SectionInfo.name sectionInfo)
    by exact Hne.
  destruct (sectionStarting_opens sectionInfo t1 inside Hne1)
    as (N1 & T1 & V1 & H1 & W1 & _ & (_ & _ & L1 & _)).
  fold opened in N1, T1, V1, H1, W1, L1.
  split; [now repeat split|].
  assert (Hne2 : m_lastTestCaseName opened
                 <> SectionInfo.name
                      (SectionStats.sectionInfo
                         {| SectionStats.sectionInfo := sectionInfo |}))
    by (rewrite <- L1; exact Hne1).
  assert (Hv : m_sectionStack opened <> []).
  { rewrite V1. intros E. symmetry in E. exact (app_cons_not_nil _ _ _ E). }
  destruct (sectionEnded_closes _ t2 opened _ _ _ _ Hne2 Hv T1 N1)
    as (closed & E2 & N2 & _ & _ & _ & W2 & _).
  exists closed. repeat split; assumption.
Qed.

Lemma section_named_as_test_case_not_skipped_witness :
  escape "it's" <> "it's"
  /\ m_sectionNameStack
       (sectionStarting (section "it's") 1
          (testCaseStarting (testCase "it's") 0 (newReporter noConfigName true)))
     = [ "global.it`s/it`s" ].
Proof.
  split; [discriminate|].
  exact (proj1 (proj1 (section_named_as_test_case_not_skipped
                         (testCase "it's") (here 2) 0 1 2
                         (newReporter noConfigName true)
                         ltac:(discriminate)))).
Defined.

(** ** The stacks and the header flag *)

Lemma length_removelast {A : Type} (x : A) (l : list A) :
  S (List.length (removelast (x :: l))) = List.length (x :: l).
Proof.
  revert x. induction l as [|y l IH]; intros x; [reflexivity|].
  cbn [removelast List.length] in *. now rewrite IH.
Qed.

Lemma sectionStarting_keeps_alignment :
  forall (sectionInfo : SectionInfo.t) (now : N) (self : TeamCityReporter),
    stacksAligned self -> stacksAligned (sectionStarting sectionInfo now self).
Proof.
  intros S now self [Hs Ht]. unfold sectionStarting.
  destruct (String.eqb _ _); [now split|].
  unfold stacksAligned. cbn. unfold vector_push_back.
  rewrite last_length. lia.
Qed.

Lemma sectionEnded_keeps_alignment :
  forall (sectionStats : SectionStats.t) (now : N) (self self' : TeamCityReporter),
    sectionEnded sectionStats now self = inr self' ->
    stacksAligned self -> stacksAligned self'.
Proof.
  intros stats now self self' H [Hs Ht]. unfold sectionEnded in H.
  destruct (String.eqb _ _); [injection H as <-; now split|].
  unfold StreamingReporterBase_sectionEnded in H.
  destruct (m_sectionStack self) as [|f v] eqn:Hv; [discriminate|].
  cbn -[removelast] in H.
  destruct (m_timerStack self) as [|t ts] eqn:Hts; [discriminate|].
  cbn -[removelast] in H.
  destruct (m_sectionNameStack self) as [|n ns] eqn:Hns; [discriminate Ht|].
  cbn -[removelast] in H. injection H as <-.
  unfold stacksAligned. cbn -[removelast].
  change (List.length (removelast (f :: v)) = List.length ts
          /\ List.length ts = List.length ns).
  pose proof (length_removelast f v) as Hl. cbn [List.length] in Hs, Ht, Hl.
  lia.
Qed.

Lemma assertionEnded_keeps_stacks {helpers : ConsoleHelpers} :
  forall (assertionStats : AssertionStats.t) (self self' : TeamCityReporter),
    assertionEnded assertionStats self = inr self' ->
    m_sectionStack self' = m_sectionStack self
    /\ m_timerStack self' = m_timerStack self
    /\ m_sectionNameStack self' = m_sectionNameStack self.
Proof.
  intros stats self self' H. unfold assertionEnded in H.
  destruct (_ || _); [|injection H as <-; now repeat split].
  destruct (if negb _ then _ else _) as [f|msg]; [discriminate|].
  cbn [bind] in H.
  destruct (resultTypeText _) as [f|text]; [discriminate|].
  cbn [bind] in H. cbn in H.
  destruct (currentTestCaseInfo self) as [info|]; [|discriminate].
  injection H as <-.
  destruct (ResultWas.eqb _ _); [now repeat split|].
  destruct (TestCaseInfo.okToFail info); now repeat split.
Qed.

Lemma handle_keeps_alignment {helpers : ConsoleHelpers} :
  forall (e : Event) (self self' : TeamCityReporter),
    handle e self = inr self' -> stacksAligned self -> stacksAligned self'.
Proof.
  intros e self self' H Hal. destruct e; cbn [handle] in H.
  - injection H as <-. exact Hal.
  - injection H as <-. exact Hal.
  - injection H as <-. exact Hal.
  - injection H as <-. destruct testCaseStats as [info [|] [|]]; exact Hal.
  - injection H as <-. now apply sectionStarting_keeps_alignment.
  - eapply sectionEnded_keeps_alignment; eassumption.
  - apply assertionEnded_keeps_stacks in H as (H1 & H2 & H3).
    unfold stacksAligned. rewrite H1, H2, H3. exact Hal.
Qed.

Lemma run_app {helpers : ConsoleHelpers} (a b : list Event) :
  forall self, run (a ++ b) self = (self' <- run a self ;; run b self').
Proof.
  induction a as [|e a IH]; intros self; [reflexivity|].
  cbn [app run]. destruct (handle e self) as [f|self1]; [reflexivity|].
  cbn [bind]. apply IH.
Qed.

Lemma sectionStarting_frame :
  forall (sectionInfo : SectionInfo.t) (now : N) (self : TeamCityReporter),
    sameTestCase self (sectionStarting sectionInfo now self).
Proof.
  intros S now self. unfold sectionStarting.
  destruct (String.eqb _ _); now repeat split.
Qed.

Lemma assertionEnded_frame {helpers : ConsoleHelpers} :
  forall (assertionStats : AssertionStats.t) (self self' : TeamCityReporter),
    assertionEnded assertionStats self = inr self' -> sameTestCase self self'.
Proof.
  intros stats self self' H. unfold assertionEnded in H.
  destruct (_ || _); [|injection H as <-; now repeat split].
  destruct (if negb _ then _ else _) as [f|msg]; [discriminate|].
  cbn [bind] in H.
  destruct (resultTypeText _) as [f|text]; [discriminate|].
  cbn [bind] in H. cbn in H.
  destruct (currentTestCaseInfo self) as [info|] eqn:Hinfo; [|discriminate].
  injection H as <-.
  destruct (ResultWas.eqb _ _); [|destruct (TestCaseInfo.okToFail info)];
    repeat split; cbn; now rewrite ?Hinfo.
Qed.

Lemma removelast_push_back {A : Type} (v : list A) (x : A) :
  removelast (vector_push_back x v) = v.
Proof. apply removelast_last. Qed.

(** Over well-nested section events the stacks come back to where they
    were, and what belongs to the test case is not touched. *)
Lemma wellNested_keeps_stacks {helpers : ConsoleHelpers} :
  forall events, wellNested events ->
  forall self after,
    run events self = inr after ->
    sameStacks self after /\ sameTestCase self after.
Proof.
  induction 1 as [|stats rest Hrest IHrest
                  |S t1 t2 body rest Hbody IHbody Hrest IHrest];
    intros self after Hrun.
  - injection Hrun as <-. now repeat split.
  - cbn [run handle] in Hrun.
    destruct (assertionEnded stats self) as [f|s1] eqn:H1; [discriminate|].
    cbn [bind] in Hrun.
    destruct (assertionEnded_keeps_stacks _ _ _ H1) as (V1 & T1 & N1).
    destruct (assertionEnded_frame _ _ _ H1) as (C1 & I1 & L1 & F1 & M1).
    destruct (IHrest _ _ Hrun) as ((V & T & N) & (C & I & L & F & M)).
    unfold sameStacks, sameTestCase. repeat split; congruence.
  - cbn [run handle bind ret] in Hrun. rewrite run_app in Hrun.
    set (s1 := sectionStarting S t1 self) in *.
    destruct (run body s1) as [f|s2] eqn:H2; [discriminate|].
    cbn [bind run handle] in Hrun.
    destruct (sectionEnded _ t2 s2) as [f|s3] eqn:H3; [discriminate|].
    cbn [bind] in Hrun.
    destruct (IHbody _ _ H2) as ((V2 & T2 & N2) & (C2 & I2 & L2 & F2 & M2)).
    destruct (IHrest _ _ Hrun) as ((V & T & N) & (C & I & L & F & M)).
    destruct (sectionStarting_frame S t1 self) as (C1 & I1 & L1 & F1 & M1).
    fold s1 in C1, I1, L1, F1, M1.
    assert (Hback : sameStacks self s3 /\ sameTestCase self s3).
    { destruct (string_dec (m_lastTestCaseName self) (SectionInfo.name S))
        as [Heq|Hne].
      - destruct (section_of_stored_name_is_skipped S t1 self Heq) as [E1 _].
        fold s1 in E1.
        assert (Heq2 : m_lastTestCaseName s2 = SectionInfo.name S)
          by congruence.
        destruct (section_of_stored_name_is_skipped S t2 s2 Heq2) as [_ E3].
        rewrite E3 in H3. injection H3 as <-.
        unfold sameStacks, sameTestCase. rewrite E1 in *.
        repeat split; congruence.
      - destruct (sectionStarting_opens S t1 self Hne)
          as (N1 & T1 & V1 & _).
        fold s1 in N1, T1, V1.
        assert (Hne2 : m_lastTestCaseName s2
                       <> SectionInfo.name
                            (SectionStats.sectionInfo
                               {| SectionStats.sectionInfo := S |}))
          by (cbn [SectionStats.sectionInfo]; congruence).
        assert (Hv2 : m_sectionStack s2 <> []).
        { rewrite <- V2, V1. intros E. symmetry in E.
          exact (app_cons_not_nil _ _ _ E). }
        rewrite T2 in T1. rewrite N2 in N1.
        destruct (sectionEnded_closes _ t2 s2 _ _ _ _ Hne2 Hv2 T1 N1)
          as (s3' & E3 & N3 & T3 & V3 & _ & _ & _ & (C3 & I3 & L3 & F3 & M3)).
        rewrite E3 in H3. injection H3 as <-.
        rewrite <- V2, V1 in V3.
        change (m_sectionStack self ++ [S])%list
          with (vector_push_back S (m_sectionStack self)) in V3.
        rewrite removelast_push_back in V3.
        unfold sameStacks, sameTestCase. repeat split; congruence. }
    destruct Hback as ((V3 & T3 & N3) & (C3 & I3 & L3 & F3 & M3)).
    unfold sameStacks, sameTestCase. repeat split; congruence.
Qed.

Lemma testCaseStarting_starts :
  forall (testInfo : TestCaseInfo.t) (now : N) (self : TeamCityReporter),
    let full :=
      escape (testCaseStarting_className testInfo (m_config self)
              ++ escape (TestCaseInfo.name testInfo)) in
    let after := testCaseStarting testInfo now self in
    written after
    = written self
      +++ [ "testCaseStarting:" ++ escape (TestCaseInfo.name testInfo)
            ++ " FullName:" ++ full ++ NL;
            "##teamcity[testStarted name='" ++ full ++ "' flowId='" ++ full
            ++ "' ]" ++ NL ]
    /\ unflushed after = []
    /\ m_testTimer after = Timer.start now
    /\ m_sectionStack after = m_sectionStack self
    /\ m_timerStack after = m_timerStack self
    /\ m_sectionNameStack after = m_sectionNameStack self
    /\ m_config after = m_config self
    /\ insideTestCase testInfo after.
Proof.
  intros testInfo now self. cbv zeta. split; [|now repeat split].
  unfold testCaseStarting. stream_eq.
Qed.

(** ** Reported assertions *)

Lemma assertionEnded_reports {helpers : ConsoleHelpers} :
  forall (assertionStats : AssertionStats.t) (self : TeamCityReporter)
         (info : TestCaseInfo.t),
    let result := AssertionStats.assertionResult assertionStats in
    notOkOrSkipped assertionStats = true ->
    reportable (AssertionResult.getResultType result) = true ->
    currentTestCaseInfo self = Some info ->
    m_headerPrintedForThisSection self = true \/ m_sectionStack self <> [] ->
    exists (msg : string) (after : TeamCityReporter),
      assertionEnded assertionStats self = inr after
      /\ written after
         = written self +++ reportedLines info (currentFlowId self) msg result
      /\ unflushed after = []
      /\ m_headerPrintedForThisSection after = true
      /\ m_sectionNameStack after = m_sectionNameStack self
      /\ sameTestCase self after.
Proof.
  intros stats self info result Hnot Hrep Hinfo Hhdr.
  unfold assertionEnded. fold result.
  unfold notOkOrSkipped in Hnot. fold result in Hnot. rewrite Hnot.
  assert (Hheader : exists header,
             (if negb (m_headerPrintedForThisSection self)
              then printSectionHeader self else ret EmptyString)
             = inr header).
  { destruct (m_headerPrintedForThisSection self); [now eexists|].
    destruct Hhdr as [Hhdr|Hhdr]; [discriminate|].
    cbn [negb]. unfold printSectionHeader.
    destruct (m_sectionStack self); [contradiction | now eexists]. }
  destruct Hheader as [header ->]. cbn [bind].
  assert (Htext : exists text,
             resultTypeText (AssertionResult.getResultType result) = inr text).
  { destruct (AssertionResult.getResultType result);
      try discriminate Hrep; now eexists. }
  destruct Htext as [text ->]. cbn [bind].
  replace (currentTestCaseInfo (put _ (with_headerPrinted true self)))
    with (currentTestCaseInfo self) by reflexivity.
  rewrite Hinfo.
  unfold reportedLines, currentFlowId. fold result.
  replace (m_sectionNameStack (put _ (with_headerPrinted true self)))
    with (m_sectionNameStack self) by reflexivity.
  replace (m_lastTestCaseFullName (put _ (with_headerPrinted true self)))
    with (m_lastTestCaseFullName self) by reflexivity.
  eexists. eexists. split; [reflexivity|].
  destruct (ResultWas.eqb (AssertionResult.getResultType result)
                          ResultWas.ExplicitSkip);
    [|destruct (TestCaseInfo.okToFail info)];
    (split; [stream_eq | now repeat split]).
Qed.

Lemma scanNamespaceMarkers_nonempty (s : string) :
  s <> EmptyString -> scanNamespaceMarkers s <> EmptyString.
Proof.
  destruct s as [|c [|d s]]; [contradiction | discriminate |].
  intros _. cbn [scanNamespaceMarkers].
  destruct (Ascii.eqb c ":" && Ascii.eqb d ":"); discriminate.
Qed.

(** The class name in front of a test name is never empty. *)
Lemma testCaseStarting_className_nonempty :
  forall (testInfo : TestCaseInfo.t) (config : IConfig.t),
    testCaseStarting_className testInfo config <> EmptyString.
Proof.
  intros testInfo config. unfold testCaseStarting_className.
  rewrite normalizeNamespaceMarkers_scan. apply scanNamespaceMarkers_nonempty.
  set (declared := flat_map_string _ _).
  assert (Hclass : match declared with
                   | EmptyString =>
                       match fileNameTag (TestCaseInfo.tags testInfo) with
                       | EmptyString => "global."
                       | String _ _ => fileNameTag (TestCaseInfo.tags testInfo)
                       end
                   | String _ _ => declared
                   end <> EmptyString).
  { destruct declared; [|discriminate].
    destruct (fileNameTag _); discriminate. }
  destruct (IConfig.name config) as [|c name]; [exact Hclass|].
  discriminate.
Qed.

Lemma full_name_is_longer (className name : string) :
  className <> EmptyString -> escape name <> escape (className ++ escape name).
Proof.
  intros Hclass Heq. apply (f_equal String.length) in Heq.
  rewrite escape_app, length_append in Heq.
  pose proof (escape_length className). pose proof (escape_length (escape name)).
  destruct className; [contradiction|]. cbn [String.length] in *. lia.
Qed.

Lemma last_of_three {A : Type} (l : list A) (x y z d : A) :
  last (l ++ [x; y; z]) d = z.
Proof.
  replace (l ++ [x; y; z])%list with ((l ++ [x; y]) ++ [z])%list
    by (now rewrite <- app_assoc).
  apply last_last.
Qed.

Lemma last_of_two {A : Type} (l : list A) (x y d : A) :
  last (l ++ [x; y]) d = y.
Proof.
  replace (l ++ [x; y])%list with ((l ++ [x]) ++ [y])%list
    by (now rewrite <- app_assoc).
  apply last_last.
Qed.

(** Two sections opened one inside the other: the correlation id in use is
    the one of the inner section. *)
Lemma nested_sections_flow_id :
  forall (outer inner : SectionInfo.t) (t1 t2 : N) (self : TeamCityReporter),
    m_lastTestCaseName self <> SectionInfo.name outer ->
    m_lastTestCaseName self <> SectionInfo.name inner ->
    m_sectionNameStack self = [] ->
    let nested := sectionStarting inner t2 (sectionStarting outer t1 self) in
    let id :=
      escape (escape (m_lastTestCaseFullName self ++ "/"
                      ++ SectionInfo.name outer)
              ++ "/" ++ SectionInfo.name inner) in
    currentFlowId nested = id
    /\ last (written nested) EmptyString
       = "##teamcity[testStarted name='" ++ id ++ "' flowId='" ++ id ++ "']"
         ++ NL
    /\ id <> m_lastTestCaseFullName nested.
Proof.
  intros outer inner t1 t2 self Ho Hi Hnames nested id.
  destruct (sectionStarting_opens outer t1 self Ho)
    as (N1 & _ & _ & _ & _ & _ & (_ & _ & L1 & F1 & _)).
  set (s1 := sectionStarting outer t1 self) in *.
  assert (Hi1 : m_lastTestCaseName s1 <> SectionInfo.name inner)
    by (rewrite <- L1; exact Hi).
  destruct (sectionStarting_opens inner t2 s1 Hi1)
    as (N2 & _ & _ & _ & W2 & _ & (_ & _ & _ & F2 & _)).
  fold nested in N2, W2, F2.
  assert (Hflow1 : currentFlowId s1
                   = escape (m_lastTestCaseFullName self ++ "/"
                             ++ SectionInfo.name outer)).
  { unfold currentFlowId at 1. rewrite N1. unfold currentFlowId.
    now rewrite Hnames. }
  rewrite Hflow1 in N2, W2. fold id in N2, W2.
  split; [|split].
  - unfold currentFlowId. now rewrite N2.
  - rewrite W2. apply last_of_two.
  - rewrite <- F2, <- F1. intros Heq.
    apply (f_equal String.length) in Heq. unfold id in Heq.
    pose proof (escape_length
                  (escape (m_lastTestCaseFullName self ++ "/"
                           ++ SectionInfo.name outer)
                   ++ "/" ++ SectionInfo.name inner)) as H1.
    pose proof (escape_length
                  (m_lastTestCaseFullName self ++ "/"
                   ++ SectionInfo.name outer)) as H2.
    rewrite !length_append in H1, H2. cbn [String.length] in H1, H2. lia.
Qed.

(** Past the section header.  For an assertion that is not ok or is an
    explicit skip, whose result kind is one of the six kinds the formatter
    has a text for, reported while a test case is current and either the
    header flag is set or the section stack is not empty, [assertionEnded]
    completes and appends exactly the three reported lines, one of which is a
    service message: [testIgnored] for an explicit skip, [testIgnored] with
    the ignore note appended to the message when the test case may fail,
    [testFailed] with the expression text as details otherwise.  Its flowId
    is the top of the correlation-name stack, or the full name of the test
    case when no section is open; under two nested sections it is the id of
    the inner section. *)
Theorem assertionEnded_one_service_message {helpers : ConsoleHelpers} :
  (forall (assertionStats : AssertionStats.t) (self : TeamCityReporter)
          (info : TestCaseInfo.t),
      let result := AssertionStats.assertionResult assertionStats in
      notOkOrSkipped assertionStats = true ->
      reportable (AssertionResult.getResultType result) = true ->
      currentTestCaseInfo self = Some info ->
      m_headerPrintedForThisSection self = true \/ m_sectionStack self <> [] ->
      exists (msg : string) (after : TeamCityReporter),
        assertionEnded assertionStats self = inr after
        /\ written after
           = written self
             +++ reportedLines info (currentFlowId self) msg result
        /\ List.length
             (filter isServiceMessage
                     (reportedLines info (currentFlowId self) msg result))
           = 1)
  /\ (forall (outer inner : SectionInfo.t) (t1 t2 : N)
             (self : TeamCityReporter),
         m_lastTestCaseName self <> SectionInfo.name outer ->
         m_lastTestCaseName self <> SectionInfo.name inner ->
         m_sectionNameStack self = [] ->
         let nested := sectionStarting inner t2 (sectionStarting outer t1 self) in
         let id :=
           escape (escape (m_lastTestCaseFullName self ++ "/"
                           ++ SectionInfo.name outer)
                   ++ "/" ++ SectionInfo.name inner) in
         currentFlowId nested = id
         /\ last (written nested) EmptyString
            = "##teamcity[testStarted name='" ++ id ++ "' flowId='" ++ id
              ++ "']" ++ NL
         /\ id <> m_lastTestCaseFullName nested).
Proof.
  split; [|exact nested_sections_flow_id].
  intros stats self info result Hnot Hrep Hinfo Hhdr.
  destruct (assertionEnded_reports stats self info Hnot Hrep Hinfo Hhdr)
    as (msg & after & Hrun & Hw & _).
  exists msg, after. split; [exact Hrun|]. split; [exact Hw|].
  unfold reportedLines.
  destruct (ResultWas.eqb _ _); [|destruct (TestCaseInfo.okToFail info)];
    reflexivity.
Qed.

Lemma assertionEnded_one_service_message_witness :
  (notOkOrSkipped (assertion false ResultWas.ExpressionFailed) = true
   /\ reportable ResultWas.ExpressionFailed = true
   /\ currentTestCaseInfo insideT = Some (testCase "t")
   /\ m_headerPrintedForThisSection insideT = true)
  /\ exists msg after,
      assertionEnded (helpers := plainHelpers)
                     (assertion false ResultWas.ExpressionFailed) insideT
      = inr after
      /\ written after
         = written insideT
           +++ reportedLines (testCase "t") "global.t" msg
                 (AssertionStats.assertionResult
                    (assertion false ResultWas.ExpressionFailed)).
Proof.
  split; [repeat split|].
  destruct (proj1 (assertionEnded_one_service_message (helpers := plainHelpers))
                  (assertion false ResultWas.ExpressionFailed) insideT
                  (testCase "t") eq_refl eq_refl eq_refl (or_introl eq_refl))
    as (msg & after & Hrun & Hw & _).
  exists msg, after. split; [exact Hrun | exact Hw].
Defined.

(** A result kind the formatter has no text for: the handler raises the
    internal error and writes no service message. *)
Lemma assertionEnded_unknown_kind_reports_nothing :
  notOkOrSkipped (assertion false ResultWas.Unknown) = true
  /\ assertionEnded (helpers := plainHelpers)
                    (assertion false ResultWas.Unknown) insideT
     = inl (CatchError "Not implemented").
Proof. split; reflexivity. Qed.

(** C10.  The name attribute of the [testFailed] or [testIgnored] message of
    a reported assertion is the escaped name of the current test case,
    without the class name.  The name attribute of the [testStarted] message
    of that test case is the full name, the escaped text of class name and
    escaped test name.  The class name is never empty, an empty declared
    class name without file-name tag giving [global.], so the two names are
    never the same text. *)
Theorem failure_message_has_short_name {helpers : ConsoleHelpers} :
  (forall (testInfo : TestCaseInfo.t) (now : N) (self : TeamCityReporter),
      let className := testCaseStarting_className testInfo (m_config self) in
      let short := escape (TestCaseInfo.name testInfo) in
      let full := escape (className ++ short) in
      className <> EmptyString
      /\ short <> full
      /\ last (written (testCaseStarting testInfo now self)) EmptyString
         = "##teamcity[testStarted name='" ++ full ++ "' flowId='" ++ full
           ++ "' ]" ++ NL
      /\ insideTestCase testInfo (testCaseStarting testInfo now self))
  /\ (forall (assertionStats : AssertionStats.t) (self : TeamCityReporter)
             (info : TestCaseInfo.t),
         let result := AssertionStats.assertionResult assertionStats in
         insideTestCase info self ->
         notOkOrSkipped assertionStats = true ->
         reportable (AssertionResult.getResultType result) = true ->
         m_headerPrintedForThisSection self = true \/ m_sectionStack self <> [] ->
         exists (after : TeamCityReporter) (verb rest : string),
           assertionEnded assertionStats self = inr after
           /\ last (written after) EmptyString
              = "##teamcity[" ++ verb ++ " name='"
                ++ escape (TestCaseInfo.name info) ++ "'" ++ rest
           /\ (verb = "testIgnored" \/ verb = "testFailed")
           /\ escape (TestCaseInfo.name info) <> m_lastTestCaseFullName self).
Proof.
  split.
  - intros testInfo now self className short full.
    pose proof (testCaseStarting_className_nonempty testInfo (m_config self))
      as Hclass.
    split; [exact Hclass|]. split; [now apply full_name_is_longer|].
    destruct (testCaseStarting_starts testInfo now self) as (W & _).
    split; [|apply testCaseStarting_stores].
    rewrite W. apply last_of_two.
  - intros stats self info result (Hinfo & _ & Hfull) Hnot Hrep Hhdr.
    destruct (assertionEnded_reports stats self info Hnot Hrep Hinfo Hhdr)
      as (msg & after & Hrun & Hw & _).
    assert (Hdiff : escape (TestCaseInfo.name info)
                    <> m_lastTestCaseFullName self).
    { rewrite Hfull. apply full_name_is_longer.
      apply testCaseStarting_className_nonempty. }
    exists after. unfold reportedLines in Hw. fold result in Hw.
    destruct (ResultWas.eqb _ _); [|destruct (TestCaseInfo.okToFail info)].
    + exists "testIgnored",
        (" message='" ++ escape msg ++ "' flowId='" ++ currentFlowId self
         ++ "']" ++ chr LF).
      split; [exact Hrun|]. split; [|split; [auto | exact Hdiff]].
      rewrite Hw. rewrite (last_of_three (written self)). reflexivity.
    + exists "testIgnored",
        (" message='"
         ++ escape (msg ++ "- failure ignore as test marked as 'ok to fail'"
                        ++ chr LF)
         ++ "' flowId='" ++ currentFlowId self ++ "']" ++ chr LF).
      split; [exact Hrun|]. split; [|split; [auto | exact Hdiff]].
      rewrite Hw. rewrite (last_of_three (written self)). reflexivity.
    + exists "testFailed",
        (" message='" ++ escape msg ++ "' details='"
         ++ escape (if AssertionResult.hasExpression result
                    then AssertionResult.getExpressionInMacro result ++ chr LF
                         ++ AssertionResult.getExpandedExpression result
                    else EmptyString)
         ++ "' flowId='" ++ currentFlowId self ++ "']" ++ chr LF).
      split; [exact Hrun|]. split; [|split; [auto | exact Hdiff]].
      rewrite Hw. rewrite (last_of_three (written self)). reflexivity.
Qed.

Lemma failure_message_has_short_name_witness :
  (insideTestCase (testCase "t") insideT
   /\ notOkOrSkipped (assertion false ResultWas.ExpressionFailed) = true
   /\ reportable ResultWas.ExpressionFailed = true
   /\ m_headerPrintedForThisSection insideT = true)
  /\ escape "t" <> m_lastTestCaseFullName insideT.
Proof.
  assert (H1 : insideTestCase (testCase "t") insideT) by (repeat split).
  split; [repeat split|].
  destruct (proj2 (failure_message_has_short_name (helpers := plainHelpers))
                  (assertion false ResultWas.ExpressionFailed) insideT
                  (testCase "t") H1 eq_refl eq_refl (or_introl eq_refl))
    as (after & verb & rest & _ & _ & _ & Hdiff).
  exact Hdiff.
Defined.

(** * Further properties of the reporter *)

(** ** The file-name tag *)

Lemma find_no_fileNameTag (tags : list Tag.t) :
  forallb (fun tag => negb (isFileNameTag tag)) tags = true ->
  List.find isFileNameTag tags = None.
Proof.
  induction tags as [|tag tags IH]; cbn [forallb List.find]; [reflexivity|].
  intros H. apply andb_prop in H as [Htag Htags].
  apply negb_true_iff in Htag. rewrite Htag. now apply IH.
Qed.

(** X1.  [fileNameTag] answers with the first tag that starts with [#],
    whatever comes after it, and gives the text behind the [#]; without such
    a tag it gives the empty text. *)
Theorem fileNameTag_first_wins :
  (forall tags,
      forallb (fun tag => negb (isFileNameTag tag)) tags = true ->
      fileNameTag tags = EmptyString)
  /\ (forall (before after : list Tag.t) (text : string),
         forallb (fun tag => negb (isFileNameTag tag)) before = true ->
         fileNameTag (before ++ {| Tag.original := String "#" text |} :: after)
         = text).
Proof.
  split.
  - intros tags H. unfold fileNameTag. now rewrite find_no_fileNameTag.
  - intros before after text H. unfold fileNameTag.
    assert (Hfind : List.find isFileNameTag
                      (before ++ {| Tag.original := String "#" text |} :: after)
                    = Some {| Tag.original := String "#" text |}).
    { induction before as [|tag before IH]; cbn [app List.find forallb] in *.
      - reflexivity.
      - apply andb_prop in H as [Htag Hbefore].
        apply negb_true_iff in Htag. rewrite Htag. now apply IH. }
    rewrite Hfind. unfold substr. cbn [Tag.original String.length substring].
    replace (S (String.length text) - 1) with (String.length text) by lia.
    apply substring_all.
Qed.

Lemma fileNameTag_first_wins_witness :
  (forallb (fun tag => negb (isFileNameTag tag))
           [ {| Tag.original := "[slow]" |}; {| Tag.original := EmptyString |} ]
   = true)
  /\ fileNameTag [ {| Tag.original := "[slow]" |};
                   {| Tag.original := EmptyString |} ] = EmptyString
  /\ fileNameTag ([ {| Tag.original := "[slow]" |};
                    {| Tag.original := EmptyString |} ]
                  ++ {| Tag.original := String "#" "io" |}
                  :: [ {| Tag.original := "#net" |} ]) = "io".
Proof.
  assert (H : forallb (fun tag => negb (isFileNameTag tag))
                      [ {| Tag.original := "[slow]" |};
                        {| Tag.original := EmptyString |} ] = true)
    by reflexivity.
  split; [exact H|]. split.
  - exact (proj1 fileNameTag_first_wins _ H).
  - exact (proj2 fileNameTag_first_wins _ [ {| Tag.original := "#net" |} ] "io" H).
Defined.

(** ** More on the namespace markers *)

Lemma scan_two (c d : ascii) (r : string) :
  scanNamespaceMarkers (String c (String d r))
  = if Ascii.eqb c ":" && Ascii.eqb d ":"
    then String "." (scanNamespaceMarkers r)
    else String c (scanNamespaceMarkers (String d r)).
Proof. reflexivity. Qed.

Lemma scan_head (d : ascii) (r : string) :
  exists e rest,
    scanNamespaceMarkers (String d r) = String e rest
    /\ (e = d \/ (d = ":"%char /\ e = "."%char)).
Proof.
  cbn [scanNamespaceMarkers]. destruct r as [|d' r]; [now eauto|].
  destruct (Ascii.eqb d ":" && Ascii.eqb d' ":") eqn:H; [|now eauto].
  apply andb_prop in H as [H _]. apply Ascii.eqb_eq in H. eauto 6.
Qed.

Lemma scan_leaves_no_marker_upto (n : nat) :
  forall s, String.length s <= n ->
            index 0 "::" (scanNamespaceMarkers s) = None.
Proof.
  induction n as [|n IH]; intros s Hlen.
  - destruct s; [reflexivity | cbn [String.length] in Hlen; lia].
  - destruct s as [|c [|d r]];
      [ reflexivity
      | cbn [scanNamespaceMarkers]; now rewrite index_0_cons, prefix_marker |].
    cbn [String.length] in Hlen. rewrite scan_two.
    destruct (Ascii.eqb c ":" && Ascii.eqb d ":") eqn:Hcd.
    + rewrite index_0_cons, prefix_marker.
      rewrite (IH r) by lia.
      now destruct (scanNamespaceMarkers r).
    + rewrite index_0_cons, prefix_marker.
      rewrite (IH (String d r)) by (cbn [String.length]; lia).
      destruct (scan_head d r) as (e & rest & -> & He).
      destruct (Ascii.eqb c ":") eqn:Hc; [|reflexivity].
      cbn [andb] in Hcd |- *.
      destruct He as [->|[-> ->]]; [now rewrite Hcd | reflexivity].
Qed.

Lemma scan_leaves_no_marker (s : string) :
  index 0 "::" (scanNamespaceMarkers s) = None.
Proof. now apply (scan_leaves_no_marker_upto (String.length s)). Qed.

Lemma scan_not_longer_upto (n : nat) :
  forall s, String.length s <= n ->
            String.length (scanNamespaceMarkers s) <= String.length s.
Proof.
  induction n as [|n IH]; intros s Hlen.
  - destruct s; [cbn; lia | cbn [String.length] in Hlen; lia].
  - destruct s as [|c [|d r]]; [cbn; lia | cbn; lia |].
    cbn [String.length] in Hlen. rewrite scan_two.
    destruct (Ascii.eqb c ":" && Ascii.eqb d ":"); cbn [String.length].
    + specialize (IH r). lia.
    + specialize (IH (String d r)). cbn [String.length] in IH. lia.
Qed.

(** X2.  The text [normalizeNamespaceMarkers] gives holds no [::] any more,
    so normalising it once more changes nothing. *)
Theorem normalizeNamespaceMarkers_leaves_no_marker :
  (forall s, find (normalizeNamespaceMarkers s) "::" 0 = None)
  /\ (forall s,
         normalizeNamespaceMarkers (normalizeNamespaceMarkers s)
         = normalizeNamespaceMarkers s).
Proof.
  split; intros s.
  - rewrite normalizeNamespaceMarkers_scan. apply scan_leaves_no_marker.
  - rewrite !normalizeNamespaceMarkers_scan.
    apply scan_no_marker, scan_leaves_no_marker.
Qed.

(** X3.  A text without [::] comes back from [normalizeNamespaceMarkers] as
    it went in, and no text comes back longer than it went in. *)
Theorem normalizeNamespaceMarkers_keeps_plain_text :
  (forall s, find s "::" 0 = None -> normalizeNamespaceMarkers s = s)
  /\ (forall s,
         String.length (normalizeNamespaceMarkers s) <= String.length s).
Proof.
  split; intros s.
  - intros H. rewrite normalizeNamespaceMarkers_scan. now apply scan_no_marker.
  - rewrite normalizeNamespaceMarkers_scan.
    now apply (scan_not_longer_upto (String.length s)).
Qed.

Lemma normalizeNamespaceMarkers_keeps_plain_text_witness :
  find "a:b.c :d" "::" 0 = None
  /\ normalizeNamespaceMarkers "a:b.c :d" = "a:b.c :d".
Proof.
  assert (H : find "a:b.c :d" "::" 0 = None) by reflexivity.
  split; [exact H|].
  exact (proj1 normalizeNamespaceMarkers_keeps_plain_text _ H).
Defined.

(** ** More on the escaper *)

Lemma escapeChar_safe (c : ascii) :
  forallb_string attributeSafe (escapeChar c) = true.
Proof. destruct c as [[] [] [] [] [] [] [] []]; reflexivity. Qed.

Lemma escape_safe (s : string) : forallb_string attributeSafe (escape s) = true.
Proof.
  rewrite escape_flat_map.
  induction s as [|c s IH]; cbn [flat_map_string]; [reflexivity|].
  now rewrite forallb_string_app, escapeChar_safe, IH.
Qed.

Lemma forallb_string_weaken (p q : ascii -> bool) (s : string) :
  (forall c, p c = true -> q c = true) ->
  forallb_string p s = true -> forallb_string q s = true.
Proof.
  intros Hpq. induction s as [|c s IH]; cbn [forallb_string]; [auto|].
  intros H. apply andb_prop in H as [Hc Hs].
  now rewrite (Hpq c Hc), IH.
Qed.

Lemma escape_noLineFeed (s : string) : noLineFeed (escape s) = true.
Proof.
  unfold noLineFeed.
  apply (forallb_string_weaken attributeSafe); [|apply escape_safe].
  intros c. unfold attributeSafe.
  destruct (Ascii.eqb c "'"), (Ascii.eqb c LF); now intros.
Qed.

(** X4.  Whatever the text, the escaped text holds no single quote, no line
    feed and no carriage return: it can stand between the single quotes of
    an attribute on one line. *)
Theorem escape_fits_an_attribute :
  forall s, forallb_string attributeSafe (escape s) = true.
Proof. exact escape_safe. Qed.

(** X5.  The escaper works piece by piece: the escaped text of two texts put
    together is the two escaped texts put together.  It never makes a text
    shorter, and only the empty text is escaped to the empty text. *)
Theorem escape_piece_by_piece :
  (forall a b, escape (a ++ b) = escape a ++ escape b)
  /\ (forall s, String.length s <= String.length (escape s))
  /\ (forall s, escape s = EmptyString <-> s = EmptyString).
Proof.
  split; [exact escape_app|]. split; [exact escape_length|].
  intros s. split; [|now intros ->].
  intros H. pose proof (escape_length s) as Hlen. rewrite H in Hlen.
  destruct s; [reflexivity | cbn [String.length] in Hlen; lia].
Qed.

(** X6.  The escaper cannot be undone: a single quote and a backtick at the
    same place of two otherwise equal texts give the same escaped text. *)
Theorem escape_merges_quote_and_backtick :
  forall a b, escape (a ++ "'" ++ b) = escape (a ++ "`" ++ b).
Proof. intros a b. now rewrite !escape_app. Qed.

(** ** The names a test case gets *)

(** X7.  [testCaseStarting] keeps the escaped test name as the short name
    and, as the full name, the escaped class name followed by the test name
    escaped twice, the short name going through the escaper again together
    with the class name.  The class name in it holds no [::]. *)
Theorem testCaseStarting_names :
  forall (testInfo : TestCaseInfo.t) (now : N) (self : TeamCityReporter),
    let className := testCaseStarting_className testInfo (m_config self) in
    let started := testCaseStarting testInfo now self in
    m_lastTestCaseName started = escape (TestCaseInfo.name testInfo)
    /\ m_lastTestCaseFullName started
       = escape className ++ escape (escape (TestCaseInfo.name testInfo))
    /\ find className "::" 0 = None
    /\ currentTestCaseInfo started = Some testInfo.
Proof.
  intros testInfo now self className started.
  split; [reflexivity|]. split; [|split; [|reflexivity]].
  - change (m_lastTestCaseFullName started)
      with (escape (className ++ escape (TestCaseInfo.name testInfo))).
    apply escape_app.
  - unfold className, testCaseStarting_className, find.
    rewrite normalizeNamespaceMarkers_scan. apply scan_leaves_no_marker.
Qed.

(** ** What every handler does to the stream *)

(** What a completed [assertionEnded] has done: the lines it appended, none
    of them a [testStarted] or [testFinished] message and none at all for an
    assertion that is ok and no skip; the header flag it leaves. *)
Lemma assertionEnded_appends {helpers : ConsoleHelpers} :
  forall (assertionStats : AssertionStats.t) (self after : TeamCityReporter),
    assertionEnded assertionStats self = inr after ->
    exists new,
      written after = written self +++ new
      /\ unflushed after = []
      /\ countVerb "testStarted" new = 0
      /\ countVerb "testFinished" new = 0
      /\ (notOkOrSkipped assertionStats = false ->
          new = []
          /\ m_headerPrintedForThisSection after
             = m_headerPrintedForThisSection self)
      /\ (notOkOrSkipped assertionStats = true ->
          m_headerPrintedForThisSection after = true).
Proof.
  intros stats self after H. unfold assertionEnded in H.
  unfold notOkOrSkipped.
  destruct (_ || _).
  - destruct (if negb _ then _ else _) as [f|msg]; [discriminate|].
    cbn [bind] in H.
    destruct (resultTypeText _) as [f|text]; [discriminate|].
    cbn [bind] in H.
    replace (currentTestCaseInfo (put _ (with_headerPrinted true self)))
      with (currentTestCaseInfo self) in H by reflexivity.
    destruct (currentTestCaseInfo self) as [info|]; [|discriminate].
    injection H as <-.
    destruct (ResultWas.eqb _ _); [|destruct (TestCaseInfo.okToFail info)];
      (eexists [_; _; _];
       split; [stream_eq|];
       split; [reflexivity|];
       split; [reflexivity|];
       split; [reflexivity|];
       split; [discriminate | reflexivity]).
  - injection H as <-. exists [].
    split; [stream_eq|]. repeat split; discriminate.
Qed.

Lemma countVerb_app (verb : string) (a b : list string) :
  countVerb verb (a ++ b) = countVerb verb a + countVerb verb b.
Proof. unfold countVerb. now rewrite filter_app, length_app. Qed.

(** What a completed [sectionEnded] has done, in each of its three ways. *)
Lemma sectionEnded_appends :
  forall (sectionStats : SectionStats.t) (now : N)
         (self after : TeamCityReporter),
    sectionEnded sectionStats now self = inr after ->
    exists new,
      written after = written self +++ new
      /\ countVerb "testStarted" new = 0
      /\ m_headerPrintedForThisSection after
         = m_headerPrintedForThisSection self
      /\ sameTestCase self after
      /\ (after = self \/ unflushed after = []).
Proof.
  intros stats now self after H. unfold sectionEnded in H.
  destruct (String.eqb _ _).
  { injection H as <-. exists []. unfold written.
    rewrite app_nil_r. now repeat split; auto. }
  unfold StreamingReporterBase_sectionEnded in H.
  destruct self as [os cfg cur secs hdr timer timers names last full].
  cbn [m_sectionStack] in H. destruct secs as [|f v]; [discriminate|].
  cbn [vector_pop_back bind ret with_sectionStack m_timerStack] in H.
  destruct timers as [|t ts]; [discriminate|].
  cbn [stack_top bind ret m_sectionNameStack] in H.
  destruct names as [|top names].
  - injection H as <-. exists [ "something wrong!!!" ++ NL ].
    split; [stream_eq|]. repeat split; auto.
  - cbn -[removelast escape streamUnsigned Timer.getElapsedMilliseconds] in H.
    injection H as <-. eexists [_; _].
    split; [stream_eq|]. repeat split; auto.
Qed.

Lemma handle_appends {helpers : ConsoleHelpers} :
  forall (e : Event) (self after : TeamCityReporter),
    handle e self = inr after ->
    exists new, written after = written self +++ new.
Proof.
  intros e self after H. destruct e; cbn [handle ret] in H.
  - injection H as <-. eexists. apply written_put.
  - injection H as <-. eexists. apply written_put.
  - injection H as <-. eexists.
    exact (proj1 (testCaseStarting_starts testInfo now self)).
  - injection H as <-. eexists.
    exact (proj1 (testCaseEnded_written testCaseStats now self)).
  - injection H as <-.
    destruct (string_dec (m_lastTestCaseName self) (SectionInfo.name sectionInfo))
      as [Heq|Hne].
    + rewrite (proj1 (section_of_stored_name_is_skipped _ now _ Heq)).
      exists []. unfold written. now rewrite app_nil_r.
    + destruct (sectionStarting_opens sectionInfo now self Hne)
        as (_ & _ & _ & _ & W & _).
      eexists. exact W.
  - destruct (sectionEnded_appends _ _ _ _ H) as (new & W & _). now exists new.
  - destruct (assertionEnded_appends _ _ _ H) as (new & W & _). now exists new.
Qed.

(** X8.  The reporter only ever appends: whatever the events, the lines
    written before a completed run are still there after it, unchanged and
    in front of everything the run wrote. *)
Theorem run_only_appends {helpers : ConsoleHelpers} :
  forall (events : list Event) (self after : TeamCityReporter),
    run events self = inr after ->
    exists new, written after = written self +++ new.
Proof.
  induction events as [|e events IH]; intros self after H; cbn [run ret] in H.
  - injection H as <-. exists []. unfold written. now rewrite app_nil_r.
  - destruct (handle e self) as [f|self1] eqn:He; [discriminate|].
    cbn [bind] in H.
    destruct (handle_appends _ _ _ He) as (new1 & W1).
    destruct (IH _ _ H) as (new2 & W2).
    exists (new1 ++ new2)%list. rewrite W2, W1. now rewrite <- app_assoc.
Qed.

Lemma run_only_appends_witness :
  exists after new,
    run (helpers := plainHelpers) (oneSectionRun "a") insideT = inr after
    /\ written after = written insideT +++ new.
Proof.
  assert (H : { after |
                run (helpers := plainHelpers) (oneSectionRun "a") insideT
                = inr after })
    by (eexists; vm_compute; reflexivity).
  destruct H as [after H].
  destruct (run_only_appends (helpers := plainHelpers) _ _ _ H) as (new & W).
  exists after, new. split; [exact H | exact W].
Defined.

(** ** The section header *)

Lemma handle_keeps_headerDoneOrNoFrame {helpers : ConsoleHelpers} :
  forall (e : Event) (self after : TeamCityReporter),
    handle e self = inr after ->
    headerDoneOrNoFrame self -> headerDoneOrNoFrame after.
Proof.
  intros e self after H Hinv. destruct e; cbn [handle ret] in H.
  - injection H as <-. exact Hinv.
  - injection H as <-. exact Hinv.
  - injection H as <-. exact Hinv.
  - injection H as <-. destruct testCaseStats as [info [|] [|]]; exact Hinv.
  - injection H as <-. unfold sectionStarting.
    destruct (String.eqb _ _); [exact Hinv | now left].
  - destruct (sectionEnded_appends _ _ _ _ H) as (_ & _ & _ & Hflag & _).
    unfold sectionEnded in H.
    destruct (String.eqb _ _); [injection H as <-; exact Hinv|].
    unfold StreamingReporterBase_sectionEnded in H.
    destruct Hinv as [Hdone|Hempty].
    + left. now rewrite Hflag.
    + rewrite Hempty in H. discriminate H.
  - destruct (assertionEnded_appends _ _ _ H)
      as (new & _ & _ & _ & _ & Hok & Hno).
    destruct (assertionEnded_keeps_stacks _ _ _ H) as (Hv & _).
    destruct (notOkOrSkipped assertionStats) eqn:Hkind.
    + left. now apply Hno.
    + destruct (Hok eq_refl) as [_ Hflag].
      unfold headerDoneOrNoFrame. now rewrite Hflag, Hv.
Qed.

Lemma run_keeps_headerDoneOrNoFrame {helpers : ConsoleHelpers} :
  forall (events : list Event) (self after : TeamCityReporter),
    run events self = inr after ->
    headerDoneOrNoFrame self -> headerDoneOrNoFrame after.
Proof.
  induction events as [|e events IH]; intros self after H Hinv;
    cbn [run ret] in H.
  - injection H as <-. exact Hinv.
  - destruct (handle e self) as [f|self1] eqn:He; [discriminate|].
    cbn [bind] in H.
    eapply IH; [exact H|]. eapply handle_keeps_headerDoneOrNoFrame; eassumption.
Qed.

(** X9.  From a new reporter on, whatever events it has handled, the header
    flag is set or the section stack is empty: the handlers put a frame on
    the section stack only together with setting the flag.  So the section
    header is never printed: a reported assertion that finds the flag down
    stops at the [assert] of [printSectionHeader]. *)
Theorem section_header_is_never_printed {helpers : ConsoleHelpers} :
  forall (events : list Event) (config : IConfig.t) (headerPrinted : bool)
         (self : TeamCityReporter),
    run events (newReporter config headerPrinted) = inr self ->
    headerDoneOrNoFrame self
    /\ forall assertionStats,
        notOkOrSkipped assertionStats = true ->
        m_headerPrintedForThisSection self = false ->
        assertionEnded assertionStats self
        = inl (AssertFailed "!m_sectionStack.empty()").
Proof.
  intros events config headerPrinted self Hrun.
  assert (Hinv : headerDoneOrNoFrame self).
  { eapply run_keeps_headerDoneOrNoFrame; [exact Hrun|]. now right. }
  split; [exact Hinv|].
  intros stats Hnot Hflag. apply assertionEnded_header_needs_section; auto.
  destruct Hinv as [Hdone|Hempty]; [congruence | exact Hempty].
Qed.

Lemma section_header_is_never_printed_witness :
  (run (helpers := plainHelpers)
       [ TestCaseStarting (testCase "t") 0; SectionStarting (section "t") 1 ]
       (newReporter noConfigName false)
   = inr (sectionStarting (section "t") 1
            (testCaseStarting (testCase "t") 0 (newReporter noConfigName false)))
   /\ notOkOrSkipped (assertion false ResultWas.ExpressionFailed) = true
   /\ m_headerPrintedForThisSection
        (sectionStarting (section "t") 1
           (testCaseStarting (testCase "t") 0 (newReporter noConfigName false)))
      = false)
  /\ assertionEnded (helpers := plainHelpers)
       (assertion false ResultWas.ExpressionFailed)
       (sectionStarting (section "t") 1
          (testCaseStarting (testCase "t") 0 (newReporter noConfigName false)))
     = inl (AssertFailed "!m_sectionStack.empty()").
Proof.
  assert (H1 : run (helpers := plainHelpers)
                   [ TestCaseStarting (testCase "t") 0;
                     SectionStarting (section "t") 1 ]
                   (newReporter noConfigName false)
               = inr (sectionStarting (section "t") 1
                        (testCaseStarting (testCase "t") 0
                           (newReporter noConfigName false))))
    by reflexivity.
  assert (H2 : notOkOrSkipped (assertion false ResultWas.ExpressionFailed) = true)
    by reflexivity.
  assert (H3 : m_headerPrintedForThisSection
                 (sectionStarting (section "t") 1
                    (testCaseStarting (testCase "t") 0
                       (newReporter noConfigName false)))
               = false)
    by (vm_compute; reflexivity).
  split; [auto|].
  exact (proj2 (section_header_is_never_printed
                  (helpers := plainHelpers) _ _ _ _ H1) _ H2 H3).
Defined.

(** ** Sections and their messages *)

Lemma countVerb_section_start (id : string) :
  countVerb "testStarted"
    [ "sectionStarting:" ++ id ++ NL;
      "##teamcity[testStarted name='" ++ id ++ "' flowId='" ++ id ++ "']" ++ NL ]
  = 1
  /\ countVerb "testFinished"
       [ "sectionStarting:" ++ id ++ NL;
         "##teamcity[testStarted name='" ++ id ++ "' flowId='" ++ id ++ "']"
         ++ NL ]
     = 0.
Proof. split; reflexivity. Qed.

Lemma countVerb_section_end (id duration : string) :
  countVerb "testStarted"
    [ "sectionEnded:" ++ id ++ NL;
      "##teamcity[testFinished name='" ++ id ++ "' duration='" ++ duration
      ++ "' flowId='" ++ id ++ "']" ++ NL ]
  = 0
  /\ countVerb "testFinished"
       [ "sectionEnded:" ++ id ++ NL;
         "##teamcity[testFinished name='" ++ id ++ "' duration='" ++ duration
         ++ "' flowId='" ++ id ++ "']" ++ NL ]
     = 1.
Proof. split; reflexivity. Qed.

(** A section that is not the test case itself, with well-nested events
    inside: what the whole of it writes and leaves. *)
Lemma section_with_body {helpers : ConsoleHelpers} :
  forall (sectionInfo : SectionInfo.t) (t1 t2 : N) (body : list Event)
         (self inner closed : TeamCityReporter),
    wellNested body ->
    m_lastTestCaseName self <> SectionInfo.name sectionInfo ->
    run body (sectionStarting sectionInfo t1 self) = inr inner ->
    sectionEnded {| SectionStats.sectionInfo := sectionInfo |} t2 inner
    = inr closed ->
    let id :=
      escape (currentFlowId self ++ "/" ++ SectionInfo.name sectionInfo) in
    written (sectionStarting sectionInfo t1 self)
    = written self
      +++ [ "sectionStarting:" ++ id ++ NL;
            "##teamcity[testStarted name='" ++ id ++ "' flowId='" ++ id
            ++ "']" ++ NL ]
    /\ written closed
       = written inner
         +++ [ "sectionEnded:" ++ escape id ++ NL;
               "##teamcity[testFinished name='" ++ escape id ++ "' duration='"
               ++ streamUnsigned (t2 - t1) ++ "' flowId='" ++ escape id
               ++ "']" ++ NL ]
    /\ sameStacks self closed
    /\ sameTestCase self closed.
Proof.
  intros S t1 t2 body self inner closed Hbody Hne Hrun Hend id.
  destruct (sectionStarting_opens S t1 self Hne)
    as (N1 & T1 & V1 & _ & W1 & _ & (C1 & I1 & L1 & F1 & M1)).
  fold id in N1, W1.
  set (s1 := sectionStarting S t1 self) in *.
  destruct (wellNested_keeps_stacks body Hbody s1 inner Hrun)
    as ((V2 & T2 & N2) & (C2 & I2 & L2 & F2 & M2)).
  assert (Hne2 : m_lastTestCaseName inner
                 <> SectionInfo.name
                      (SectionStats.sectionInfo
                         {| SectionStats.sectionInfo := S |}))
    by (cbn [SectionStats.sectionInfo]; congruence).
  assert (Hv2 : m_sectionStack inner <> []).
  { rewrite <- V2, V1. intros E. symmetry in E.
    exact (app_cons_not_nil _ _ _ E). }
  rewrite T2 in T1. rewrite N2 in N1.
  destruct (sectionEnded_closes _ t2 inner _ _ _ _ Hne2 Hv2 T1 N1)
    as (closed' & E3 & N3 & T3 & V3 & _ & W3 & _ & (C3 & I3 & L3 & F3 & M3)).
  rewrite E3 in Hend. injection Hend as <-.
  rewrite <- V2, V1 in V3.
  change (m_sectionStack self ++ [S])%list
    with (vector_push_back S (m_sectionStack self)) in V3.
  rewrite removelast_push_back in V3.
  split; [exact W1|]. split; [exact W3|].
  unfold sameStacks, sameTestCase. repeat split; congruence.
Qed.

Lemma wellNested_balanced {helpers : ConsoleHelpers} :
  forall events, wellNested events ->
  forall self after,
    run events self = inr after ->
    exists new,
      written after = written self +++ new
      /\ countVerb "testStarted" new = countVerb "testFinished" new.
Proof.
  induction 1 as [|stats rest Hrest IHrest
                  |S t1 t2 body rest Hbody IHbody Hrest IHrest];
    intros self after Hrun.
  - injection Hrun as <-. exists []. unfold written.
    now rewrite app_nil_r.
  - cbn [run handle] in Hrun.
    destruct (assertionEnded stats self) as [f|s1] eqn:H1; [discriminate|].
    cbn [bind] in Hrun.
    destruct (assertionEnded_appends _ _ _ H1) as (new1 & W1 & _ & S1 & F1 & _).
    destruct (IHrest _ _ Hrun) as (new2 & W2 & B2).
    exists (new1 ++ new2)%list. split.
    + rewrite W2, W1. now rewrite <- app_assoc.
    + rewrite !countVerb_app. lia.
  - cbn [run handle bind ret] in Hrun. rewrite run_app in Hrun.
    destruct (run body (sectionStarting S t1 self)) as [f|s2] eqn:H2;
      [discriminate|].
    cbn [bind run handle] in Hrun.
    destruct (sectionEnded _ t2 s2) as [f|s3] eqn:H3; [discriminate|].
    cbn [bind] in Hrun.
    destruct (IHbody _ _ H2) as (newb & Wb & Bb).
    destruct (IHrest _ _ Hrun) as (newr & Wr & Br).
    destruct (string_dec (m_lastTestCaseName self) (SectionInfo.name S))
      as [Heq|Hne].
    + destruct (section_of_stored_name_is_skipped S t1 self Heq) as [E1 _].
      rewrite E1 in H2, Wb.
      destruct (wellNested_keeps_stacks body Hbody self s2 H2)
        as (_ & (_ & _ & L2 & _)).
      assert (Heq2 : m_lastTestCaseName s2 = SectionInfo.name S) by congruence.
      destruct (section_of_stored_name_is_skipped S t2 s2 Heq2) as [_ E3].
      rewrite E3 in H3. injection H3 as <-.
      exists (newb ++ newr)%list. split.
      * rewrite Wr, Wb. now rewrite <- app_assoc.
      * rewrite !countVerb_app. lia.
    + destruct (section_with_body S t1 t2 body self s2 s3 Hbody Hne H2 H3)
        as (W1 & W3 & _).
      rewrite W1 in Wb. rewrite Wb in W3. rewrite W3 in Wr.
      eexists. split.
      * rewrite Wr. rewrite <- !app_assoc. reflexivity.
      * rewrite !countVerb_app.
        destruct (countVerb_section_start
                    (escape (currentFlowId self ++ "/" ++ SectionInfo.name S)))
          as [-> ->].
        destruct (countVerb_section_end
                    (escape (escape (currentFlowId self ++ "/"
                                     ++ SectionInfo.name S)))
                    (streamUnsigned (t2 - t1)))
          as [-> ->].
        lia.
Qed.

Lemma openedSections_app (stored : string) (a b : list Event) :
  openedSections stored (a ++ b)%list
  = (openedSections stored a + openedSections stored b)%nat.
Proof. unfold openedSections. now rewrite filter_app, length_app. Qed.

Lemma openedSections_section (stored : string) (sectionInfo : SectionInfo.t)
      (t1 t2 : N) (body rest : list Event) :
  openedSections stored
    (SectionStarting sectionInfo t1
     :: body
     ++ SectionEnded {| SectionStats.sectionInfo := sectionInfo |} t2
     :: rest)%list
  = ((if String.eqb stored (SectionInfo.name sectionInfo) then 0 else 1)
     + openedSections stored body + openedSections stored rest)%nat.
Proof.
  change (SectionStarting sectionInfo t1
          :: body
          ++ SectionEnded {| SectionStats.sectionInfo := sectionInfo |} t2
          :: rest)%list
    with ([SectionStarting sectionInfo t1]
          ++ body
          ++ [SectionEnded {| SectionStats.sectionInfo := sectionInfo |} t2]
          ++ rest)%list.
  rewrite !openedSections_app. unfold openedSections at 1 3.
  cbn [filter opensSection List.length].
  destruct (String.eqb stored (SectionInfo.name sectionInfo));
    cbn [negb List.length]; lia.
Qed.

(** Over well-nested events every section that is not skipped writes one
    [testStarted] and one [testFinished] message, and nothing else writes
    either. *)
Lemma wellNested_counts {helpers : ConsoleHelpers} :
  forall events, wellNested events ->
  forall self after,
    run events self = inr after ->
    exists new,
      written after = written self +++ new
      /\ countVerb "testStarted" new
         = openedSections (m_lastTestCaseName self) events
      /\ countVerb "testFinished" new
         = openedSections (m_lastTestCaseName self) events.
Proof.
  induction 1 as [|stats rest Hrest IHrest
                  |S t1 t2 body rest Hbody IHbody Hrest IHrest];
    intros self after Hrun.
  - injection Hrun as <-. exists []. unfold written.
    rewrite app_nil_r. now repeat split.
  - cbn [run handle] in Hrun.
    destruct (assertionEnded stats self) as [f|s1] eqn:H1; [discriminate|].
    cbn [bind] in Hrun.
    destruct (assertionEnded_appends _ _ _ H1) as (new1 & W1 & _ & S1 & F1 & _).
    destruct (assertionEnded_frame _ _ _ H1) as (_ & _ & L1 & _).
    destruct (IHrest _ _ Hrun) as (new2 & W2 & S2 & F2).
    rewrite <- L1 in S2, F2.
    exists (new1 ++ new2)%list. split.
    + rewrite W2, W1. now rewrite <- app_assoc.
    + rewrite !countVerb_app, S1, F1, S2, F2.
      unfold openedSections. cbn [filter opensSection]. now split.
  - cbn [run handle bind ret] in Hrun. rewrite run_app in Hrun.
    destruct (run body (sectionStarting S t1 self)) as [f|s2] eqn:H2;
      [discriminate|].
    cbn [bind run handle] in Hrun.
    destruct (sectionEnded _ t2 s2) as [f|s3] eqn:H3; [discriminate|].
    cbn [bind] in Hrun.
    destruct (IHbody _ _ H2) as (newb & Wb & Sb & Fb).
    destruct (IHrest _ _ Hrun) as (newr & Wr & Sr & Fr).
    rewrite openedSections_section.
    destruct (string_dec (m_lastTestCaseName self) (SectionInfo.name S))
      as [Heq|Hne].
    + destruct (section_of_stored_name_is_skipped S t1 self Heq) as [E1 _].
      rewrite E1 in H2, Wb, Sb, Fb.
      destruct (wellNested_keeps_stacks body Hbody self s2 H2)
        as (_ & (_ & _ & L2 & _)).
      assert (Heq2 : m_lastTestCaseName s2 = SectionInfo.name S) by congruence.
      destruct (section_of_stored_name_is_skipped S t2 s2 Heq2) as [_ E3].
      rewrite E3 in H3. injection H3 as <-.
      rewrite <- L2 in Sr, Fr.
      apply String.eqb_eq in Heq. rewrite Heq.
      exists (newb ++ newr)%list. split.
      * rewrite Wr, Wb. now rewrite <- app_assoc.
      * rewrite !countVerb_app, Sb, Fb, Sr, Fr. now split.
    + destruct (section_with_body S t1 t2 body self s2 s3 Hbody Hne H2 H3)
        as (W1 & W3 & _ & (_ & _ & L3 & _)).
      destruct (sectionStarting_frame S t1 self) as (_ & _ & L1 & _).
      rewrite <- L1 in Sb, Fb. rewrite <- L3 in Sr, Fr.
      rewrite W1 in Wb. rewrite Wb in W3. rewrite W3 in Wr.
      apply String.eqb_neq in Hne. rewrite Hne.
      eexists. split.
      * rewrite Wr. rewrite <- !app_assoc. reflexivity.
      * rewrite !countVerb_app, Sb, Fb, Sr, Fr.
        destruct (countVerb_section_start
                    (escape (currentFlowId self ++ "/" ++ SectionInfo.name S)))
          as [-> ->].
        destruct (countVerb_section_end
                    (escape (escape (currentFlowId self ++ "/"
                                     ++ SectionInfo.name S)))
                    (streamUnsigned (t2 - t1)))
          as [-> ->].
        split; lia.
Qed.

(** X10.  Over the events of a test case with well-nested sections, a
    completed run writes as many [testStarted] messages as [testFinished]
    messages, and their number is the number of section starts whose name
    differs from the stored name of the test case: one pair for each section
    that is not the test case itself, none for the section that is, none for
    an assertion. *)
Theorem wellNested_messages_pair_up {helpers : ConsoleHelpers} :
  forall (events : list Event) (self after : TeamCityReporter),
    wellNested events ->
    run events self = inr after ->
    exists new,
      written after = written self +++ new
      /\ countVerb "testStarted" new
         = openedSections (m_lastTestCaseName self) events
      /\ countVerb "testFinished" new
         = openedSections (m_lastTestCaseName self) events.
Proof.
  intros events self after Hnested Hrun.
  exact (wellNested_counts events Hnested self after Hrun).
Qed.

(** X11.  The end of a section answers its own start, whatever well-nested
    sections and assertions lie between them: its [testFinished] message
    carries the escaped correlation name that the start pushed, its duration
    runs from the clock reading of that start, the two messages enclose all
    that was written in between, and the three stacks are afterwards what
    they were before the section. *)
Theorem section_end_answers_its_start {helpers : ConsoleHelpers} :
  forall (sectionInfo : SectionInfo.t) (t1 t2 : N) (body : list Event)
         (self after : TeamCityReporter),
    wellNested body ->
    m_lastTestCaseName self <> SectionInfo.name sectionInfo ->
    run (SectionStarting sectionInfo t1
         :: body
         ++ [ SectionEnded {| SectionStats.sectionInfo := sectionInfo |} t2 ])%list
        self
    = inr after ->
    let id :=
      escape (currentFlowId self ++ "/" ++ SectionInfo.name sectionInfo) in
    exists between,
      written after
      = written self
        +++ [ "sectionStarting:" ++ id ++ NL;
              "##teamcity[testStarted name='" ++ id ++ "' flowId='" ++ id
              ++ "']" ++ NL ]
        +++ between
        +++ [ "sectionEnded:" ++ escape id ++ NL;
              "##teamcity[testFinished name='" ++ escape id ++ "' duration='"
              ++ streamUnsigned (t2 - t1) ++ "' flowId='" ++ escape id
              ++ "']" ++ NL ]
      /\ countVerb "testStarted" between = countVerb "testFinished" between
      /\ sameStacks self after.
Proof.
  intros S t1 t2 body self after Hbody Hne Hrun id.
  cbn [run handle bind ret] in Hrun. rewrite run_app in Hrun.
  destruct (run body (sectionStarting S t1 self)) as [f|s2] eqn:H2;
    [discriminate|].
  cbn [bind run handle] in Hrun.
  destruct (sectionEnded _ t2 s2) as [f|s3] eqn:H3; [discriminate|].
  cbn [bind ret] in Hrun. injection Hrun as <-.
  destruct (wellNested_balanced body Hbody _ _ H2) as (between & Wb & Bb).
  destruct (section_with_body S t1 t2 body self s2 s3 Hbody Hne H2 H3)
    as (W1 & W3 & Hstacks & _).
  exists between. split; [|split; [exact Bb | exact Hstacks]].
  rewrite W3, Wb, W1. fold id. now rewrite <- !app_assoc.
Qed.

Lemma wellNested_messages_pair_up_witness :
  exists after new,
    (wellNested
       [ SectionStarting (section "t") 1;
         SectionStarting (section "a") 2;
         SectionStarting (section "b") 3;
         AssertionEnded (assertion false ResultWas.ExpressionFailed);
         SectionEnded (sectionEnd "b") 4;
         SectionEnded (sectionEnd "a") 5;
         SectionEnded (sectionEnd "t") 6 ]
     /\ run (helpers := plainHelpers)
       [ SectionStarting (section "t") 1;
         SectionStarting (section "a") 2;
         SectionStarting (section "b") 3;
         AssertionEnded (assertion false ResultWas.ExpressionFailed);
         SectionEnded (sectionEnd "b") 4;
         SectionEnded (sectionEnd "a") 5;
         SectionEnded (sectionEnd "t") 6 ] insideT
        = inr after)
    /\ written after = written insideT +++ new
    /\ countVerb "testStarted" new = 2
    /\ countVerb "testFinished" new = 2.
Proof.
  assert (H1 : wellNested
       [ SectionStarting (section "t") 1;
         SectionStarting (section "a") 2;
         SectionStarting (section "b") 3;
         AssertionEnded (assertion false ResultWas.ExpressionFailed);
         SectionEnded (sectionEnd "b") 4;
         SectionEnded (sectionEnd "a") 5;
         SectionEnded (sectionEnd "t") 6 ]).
  { apply (wellNested_section (section "t") 1 6
             [ SectionStarting (section "a") 2;
               SectionStarting (section "b") 3;
               AssertionEnded (assertion false ResultWas.ExpressionFailed);
               SectionEnded (sectionEnd "b") 4;
               SectionEnded (sectionEnd "a") 5 ] []); [|constructor].
    apply (wellNested_section (section "a") 2 5
             [ SectionStarting (section "b") 3;
               AssertionEnded (assertion false ResultWas.ExpressionFailed);
               SectionEnded (sectionEnd "b") 4 ] []); [|constructor].
    apply (wellNested_section (section "b") 3 4
             [ AssertionEnded (assertion false ResultWas.ExpressionFailed) ] []);
      repeat constructor. }
  assert (H2 : { after |
                 run (helpers := plainHelpers)
       [ SectionStarting (section "t") 1;
         SectionStarting (section "a") 2;
         SectionStarting (section "b") 3;
         AssertionEnded (assertion false ResultWas.ExpressionFailed);
         SectionEnded (sectionEnd "b") 4;
         SectionEnded (sectionEnd "a") 5;
         SectionEnded (sectionEnd "t") 6 ] insideT
                 = inr after })
    by (eexists; vm_compute; reflexivity).
  destruct H2 as [after H2].
  destruct (wellNested_messages_pair_up (helpers := plainHelpers) _ _ _ H1 H2)
    as (new & W & S & F).
  exists after, new. split; [split; [exact H1 | exact H2]|].
  split; [exact W | split; [exact S | exact F]].
Defined.

Lemma section_end_answers_its_start_witness :
  exists after,
    (wellNested [ AssertionEnded (assertion false ResultWas.ExpressionFailed) ]
     /\ m_lastTestCaseName insideT <> SectionInfo.name (section "a")
     /\ run (helpers := plainHelpers)
            [ SectionStarting (section "a") 1;
              AssertionEnded (assertion false ResultWas.ExpressionFailed);
              SectionEnded (sectionEnd "a") 4 ] insideT
        = inr after)
    /\ sameStacks insideT after.
Proof.
  assert (H1 : wellNested
                 [ AssertionEnded (assertion false ResultWas.ExpressionFailed) ])
    by repeat constructor.
  assert (H2 : m_lastTestCaseName insideT <> SectionInfo.name (section "a"))
    by discriminate.
  assert (H3 : { after |
                 run (helpers := plainHelpers)
                     [ SectionStarting (section "a") 1;
                       AssertionEnded (assertion false ResultWas.ExpressionFailed);
                       SectionEnded (sectionEnd "a") 4 ] insideT
                 = inr after })
    by (eexists; vm_compute; reflexivity).
  destruct H3 as [after H3]. exists after. split; [auto|].
  destruct (section_end_answers_its_start
              (helpers := plainHelpers) (section "a") 1 4
              [ AssertionEnded (assertion false ResultWas.ExpressionFailed) ]
              insideT after H1 H2 H3)
    as (between & _ & _ & Hstacks).
  exact Hstacks.
Defined.

(** ** The buffer of the stream *)

Lemma run_below_the_run_flushes {helpers : ConsoleHelpers} :
  forall (events : list Event) (self after : TeamCityReporter),
    forallb (fun e => negb (isRunEvent e)) events = true ->
    unflushed self = [] ->
    run events self = inr after ->
    unflushed after = [].
Proof.
  induction events as [|e events IH]; intros self after Hev Hbuf Hrun;
    cbn [run ret] in Hrun.
  - injection Hrun as <-. exact Hbuf.
  - cbn [forallb] in Hev. apply andb_prop in Hev as [He Hev].
    destruct (handle e self) as [f|self1] eqn:H1; [discriminate|].
    cbn [bind] in Hrun. apply (IH self1 after Hev); [|exact Hrun].
    assert (Hcase : self1 = self \/ unflushed self1 = []).
    { apply (handlers_below_the_run_flush e self self1); [|exact H1].
      destruct e; try exact I; discriminate He. }
    destruct Hcase as [->|Hflushed]; assumption.
Qed.

(** X12.  The handlers of test cases, sections and assertions never leave
    anything of their own in the buffer: a completed run of such events on a
    reporter with an empty buffer ends with an empty buffer, and the line
    that [testRunStarting] left in the buffer is handed over by the
    [testCaseStarting] that follows. *)
Theorem handlers_below_the_run_keep_the_buffer_empty
        {helpers : ConsoleHelpers} :
  (forall (events : list Event) (self after : TeamCityReporter),
      forallb (fun e => negb (isRunEvent e)) events = true ->
      unflushed self = [] ->
      run events self = inr after ->
      unflushed after = [])
  /\ (forall (runInfo : TestRunInfo.t) (testInfo : TestCaseInfo.t) (now : N)
             (self : TeamCityReporter),
         unflushed (testCaseStarting testInfo now (testRunStarting runInfo self))
         = []).
Proof. split; [exact run_below_the_run_flushes | reflexivity]. Qed.

Lemma handlers_below_the_run_keep_the_buffer_empty_witness :
  exists after,
    (forallb (fun e => negb (isRunEvent e)) (oneSectionRun "a") = true
     /\ unflushed (newReporter noConfigName true) = []
     /\ run (helpers := plainHelpers) (oneSectionRun "a")
            (newReporter noConfigName true) = inr after)
    /\ unflushed after = [].
Proof.
  assert (H1 : forallb (fun e => negb (isRunEvent e)) (oneSectionRun "a") = true)
    by reflexivity.
  assert (H2 : unflushed (newReporter noConfigName true) = []) by reflexivity.
  assert (H3 : { after |
                 run (helpers := plainHelpers) (oneSectionRun "a")
                     (newReporter noConfigName true) = inr after })
    by (eexists; vm_compute; reflexivity).
  destruct H3 as [after H3]. exists after. split; [auto|].
  exact (proj1 (handlers_below_the_run_keep_the_buffer_empty
                  (helpers := plainHelpers)) _ _ _ H1 H2 H3).
Defined.

(** ** Stacks in step *)

Lemma run_keeps_alignment {helpers : ConsoleHelpers} :
  forall (events : list Event) (self after : TeamCityReporter),
    run events self = inr after -> stacksAligned self -> stacksAligned after.
Proof.
  induction events as [|e events IH]; intros self after H Hal;
    cbn [run ret] in H.
  - injection H as <-. exact Hal.
  - destruct (handle e self) as [f|self1] eqn:He; [discriminate|].
    cbn [bind] in H.
    eapply IH; [exact H|]. eapply handle_keeps_alignment; eassumption.
Qed.

(** X13.  From a new reporter on, the three stacks always have the same
    length, so the line [something wrong!!!] is never written: a section end
    that completes either is the skipped end of the test case itself,
    leaving the reporter as it was, or closes the innermost open section
    with its [testFinished] message and pops the timer and the correlation
    name. *)
Theorem completed_section_end_is_a_proper_one {helpers : ConsoleHelpers} :
  forall (events : list Event) (config : IConfig.t) (headerPrinted : bool)
         (self after : TeamCityReporter)
         (sectionStats : SectionStats.t) (now : N),
    run events (newReporter config headerPrinted) = inr self ->
    sectionEnded sectionStats now self = inr after ->
    stacksAligned self
    /\ (after = self
        \/ exists (top : string) (names : list string)
                  (timer : Timer.t) (timers : list Timer.t),
            m_sectionNameStack self = top :: names
            /\ m_timerStack self = timer :: timers
            /\ m_sectionNameStack after = names
            /\ m_timerStack after = timers
            /\ written after
               = written self
                 +++ [ "sectionEnded:" ++ escape top ++ NL;
                       "##teamcity[testFinished name='" ++ escape top
                       ++ "' duration='"
                       ++ streamUnsigned
                            (Timer.getElapsedMilliseconds timer now)
                       ++ "' flowId='" ++ escape top ++ "']" ++ NL ]).
Proof.
  intros events config headerPrinted self after stats now Hrun Hend.
  assert (Hal : stacksAligned self).
  { eapply run_keeps_alignment; [exact Hrun|]. split; reflexivity. }
  split; [exact Hal|].
  destruct (string_dec (m_lastTestCaseName self)
                       (SectionInfo.name (SectionStats.sectionInfo stats)))
    as [Heq|Hne].
  - left. destruct stats as [sectionInfo].
    destruct (section_of_stored_name_is_skipped sectionInfo now self Heq)
      as [_ E].
    rewrite E in Hend. now injection Hend.
  - right. destruct Hal as [Hs Ht].
    destruct (m_sectionNameStack self) as [|top names] eqn:Hnames.
    + exfalso.
      destruct (sectionEnded_needs_a_timer stats now self Hne) as (what & E).
      * now apply length_zero_iff_nil.
      * rewrite E in Hend. discriminate Hend.
    + destruct (m_timerStack self) as [|timer timers] eqn:Htimers;
        [discriminate Ht|].
      assert (Hv : m_sectionStack self <> []).
      { intros E. rewrite E in Hs. discriminate Hs. }
      destruct (sectionEnded_closes stats now self timer timers top names
                                    Hne Hv Htimers Hnames)
        as (after' & E & N & T & _ & _ & W & _).
      rewrite E in Hend. injection Hend as <-.
      exists top, names, timer, timers. repeat split; assumption.
Qed.

Lemma completed_section_end_is_a_proper_one_witness :
  (run (helpers := plainHelpers)
       [ TestCaseStarting (testCase "t") 0; SectionStarting (section "a") 1 ]
       (newReporter noConfigName true)
   = inr (sectionStarting (section "a") 1 insideT)
   /\ exists after,
       sectionEnded (sectionEnd "a") 2 (sectionStarting (section "a") 1 insideT)
       = inr after)
  /\ stacksAligned (sectionStarting (section "a") 1 insideT).
Proof.
  assert (H1 : run (helpers := plainHelpers)
                   [ TestCaseStarting (testCase "t") 0;
                     SectionStarting (section "a") 1 ]
                   (newReporter noConfigName true)
               = inr (sectionStarting (section "a") 1 insideT))
    by reflexivity.
  assert (H2 : { after |
                 sectionEnded (sectionEnd "a") 2
                              (sectionStarting (section "a") 1 insideT)
                 = inr after })
    by (eexists; vm_compute; reflexivity).
  destruct H2 as [after H2].
  split; [split; [exact H1 | now exists after]|].
  exact (proj1 (completed_section_end_is_a_proper_one
                  (helpers := plainHelpers) _ _ _ _ _ _ _ H1 H2)).
Defined.

(** ** The header line of a section name *)

Lemma prefix_colon_space (c : ascii) (s : string) :
  prefix ": " (String c s)
  = match s with
    | String d _ => Ascii.eqb c ":" && Ascii.eqb d " "
    | EmptyString => false
    end.
Proof.
  destruct s as [|d s]; cbn [prefix].
  - now destruct (ascii_dec ":" c).
  - destruct (ascii_dec ":" c) as [<-|Hc].
    + destruct (ascii_dec " " d) as [<-|Hd]; [now destruct s|].
      apply not_eq_sym, Ascii.eqb_neq in Hd. now rewrite Hd.
    + apply not_eq_sym, Ascii.eqb_neq in Hc. now rewrite Hc.
Qed.

Lemma index_behind_label (label rest : string) :
  index 0 ": " label = None ->
  index 0 ": " (label ++ ": " ++ rest) = Some (String.length label).
Proof.
  induction label as [|c label IH]; intros H.
  - cbn [append String.length]. rewrite index_0_cons, prefix_colon_space.
    reflexivity.
  - rewrite index_0_cons in H.
    destruct (prefix ": " (String c label)) eqn:Hp; [discriminate|].
    destruct (index 0 ": " label) eqn:Hl; [discriminate|].
    change (String c label ++ ": " ++ rest)
      with (String c (label ++ ": " ++ rest)).
    cbn [String.length]. rewrite index_0_cons, (IH eq_refl).
    assert (Hp' : prefix ": " (String c (label ++ ": " ++ rest)) = false).
    { rewrite prefix_colon_space in *. destruct label as [|d label].
      - cbn [append]. now destruct (Ascii.eqb c ":").
      - exact Hp. }
    now rewrite Hp'.
Qed.

(** X14.  [printHeaderString] lets the lines after the first start behind
    the first colon and blank of the text: with a label in front that holds
    no colon and blank itself, the indent is the length of the label and two
    more, on top of the indent asked for; a text without colon and blank
    gets the indent asked for and nothing more. *)
Theorem printHeaderString_indents_behind_label {helpers : ConsoleHelpers} :
  (forall (text : string) (indent : nat),
      find text ": " 0 = None ->
      printHeaderString text indent = Column text indent indent ++ NL)
  /\ (forall (label rest : string) (indent : nat),
         find label ": " 0 = None ->
         printHeaderString (label ++ ": " ++ rest) indent
         = Column (label ++ ": " ++ rest)
                  (indent + (String.length label + 2)) indent
           ++ NL).
Proof.
  split.
  - intros text indent H. unfold printHeaderString. rewrite H.
    now rewrite Nat.add_0_r.
  - intros label rest indent H. unfold printHeaderString, find in *.
    now rewrite (index_behind_label label rest H).
Qed.

Lemma printHeaderString_indents_behind_label_witness :
  (find "Scenario" ": " 0 = None)
  /\ printHeaderString (helpers := plainHelpers)
       ("Scenario" ++ ": " ++ "a: b") 1
     = Column (ConsoleHelpers := plainHelpers)
              ("Scenario" ++ ": " ++ "a: b") 11 1 ++ NL.
Proof.
  assert (H : find "Scenario" ": " 0 = None) by reflexivity.
  split; [exact H|].
  exact (proj2 (printHeaderString_indents_behind_label
                  (helpers := plainHelpers)) "Scenario" "a: b" 1 H).
Defined.

(** ** One line per message *)

Lemma noLineFeed_app (a b : string) :
  noLineFeed (a ++ b) = noLineFeed a && noLineFeed b.
Proof. apply forallb_string_app. Qed.

Lemma oneLine_app (a rest : string) :
  noLineFeed a = true -> oneLine rest -> oneLine (a ++ rest).
Proof.
  intros Ha (body & -> & Hbody). exists (a ++ body). split.
  - now rewrite append_assoc.
  - now rewrite noLineFeed_app, Ha, Hbody.
Qed.

Lemma oneLine_NL : oneLine NL.
Proof. exists EmptyString. now split. Qed.

Lemma digits_noLineFeed (d : Decimal.uint) :
  noLineFeed (NilEmpty.string_of_uint d) = true.
Proof. induction d; cbn [NilEmpty.string_of_uint]; try reflexivity; exact IHd. Qed.

Lemma streamUnsigned_noLineFeed (n : N) : noLineFeed (streamUnsigned n) = true.
Proof.
  unfold streamUnsigned, NilZero.string_of_uint.
  destruct (N.to_uint n) eqn:E; try reflexivity;
    rewrite <- E; apply digits_noLineFeed.
Qed.

Lemma oneLine_cons (c : ascii) (rest : string) :
  negb (Ascii.eqb c LF) = true -> oneLine rest -> oneLine (String c rest).
Proof.
  intros Hc (body & -> & Hbody). exists (String c body). split; [reflexivity|].
  unfold noLineFeed in *. cbn [forallb_string]. now rewrite Hc, Hbody.
Qed.

Ltac one_line :=
  repeat first
    [ apply oneLine_NL
    | apply oneLine_cons; [reflexivity|]
    | apply oneLine_app;
      [ first [ apply escape_noLineFeed
              | apply streamUnsigned_noLineFeed
              | assumption
              | reflexivity ] |] ].

Lemma sectionEnded_lines :
  forall (sectionStats : SectionStats.t) (now : N)
         (self after : TeamCityReporter),
    sectionEnded sectionStats now self = inr after ->
    keptNamesOnOneLine self ->
    keptNamesOnOneLine after
    /\ exists new, written after = written self +++ new /\ Forall oneLine new.
Proof.
  intros stats now self after H Hkept. unfold sectionEnded in H.
  destruct (String.eqb _ _).
  { injection H as <-. split; [exact Hkept|]. exists []. unfold written.
    rewrite app_nil_r. now split. }
  unfold StreamingReporterBase_sectionEnded in H.
  destruct self as [os cfg cur secs hdr timer timers names last full].
  destruct Hkept as [Hfull Hnames].
  cbn [m_lastTestCaseFullName m_sectionNameStack] in Hfull, Hnames.
  cbn [m_sectionStack] in H. destruct secs as [|f v]; [discriminate|].
  cbn [vector_pop_back bind ret with_sectionStack m_timerStack] in H.
  destruct timers as [|t ts]; [discriminate|].
  cbn [stack_top bind ret m_sectionNameStack] in H.
  destruct names as [|top names].
  - injection H as <-. split; [now split|].
    exists [ "something wrong!!!" ++ NL ]. split; [stream_eq|].
    repeat constructor. one_line.
  - cbn -[removelast escape streamUnsigned Timer.getElapsedMilliseconds] in H.
    injection H as <-. split.
    + split; [exact Hfull|]. now inversion Hnames.
    + eexists [_; _]. split; [stream_eq|].
      repeat (apply Forall_cons; [one_line|]). apply Forall_nil.
Qed.

Lemma assertionEnded_lines {helpers : ConsoleHelpers} :
  forall (assertionStats : AssertionStats.t) (self after : TeamCityReporter),
    assertionEnded assertionStats self = inr after ->
    keptNamesOnOneLine self ->
    keptNamesOnOneLine after
    /\ exists new, written after = written self +++ new /\ Forall oneLine new.
Proof.
  intros stats self after H Hkept. unfold assertionEnded in H.
  destruct (_ || _).
  - destruct (if negb _ then _ else _) as [f|msg]; [discriminate|].
    cbn [bind] in H.
    destruct (resultTypeText _) as [f|text]; [discriminate|].
    cbn [bind] in H.
    destruct self as [os cfg cur secs hdr timer timers names last full].
    destruct Hkept as [Hfull Hnames].
    cbn [m_lastTestCaseFullName m_sectionNameStack] in Hfull, Hnames.
    cbn [currentTestCaseInfo put with_stream with_headerPrinted
         m_sectionNameStack m_lastTestCaseFullName] in H.
    destruct cur as [info|]; [|discriminate].
    assert (Hflow : noLineFeed match names with
                               | [] => full
                               | top :: _ => top
                               end = true).
    { destruct names as [|top names]; [exact Hfull | now inversion Hnames]. }
    injection H as <-.
    destruct (ResultWas.eqb _ _); [|destruct (TestCaseInfo.okToFail info)];
      (split; [now split|]; eexists [_; _; _]; split; [stream_eq|];
       repeat (apply Forall_cons; [one_line|]); apply Forall_nil).
  - injection H as <-. split; [exact Hkept|]. exists [].
    split; [stream_eq | constructor].
Qed.

Lemma handle_writes_lines {helpers : ConsoleHelpers} :
  forall (e : Event) (self after : TeamCityReporter),
    handle e self = inr after ->
    keptNamesOnOneLine self ->
    keptNamesOnOneLine after
    /\ exists new, written after = written self +++ new /\ Forall oneLine new.
Proof.
  intros e self after H Hkept. destruct e; cbn [handle ret] in H.
  - injection H as <-. split; [exact Hkept|].
    eexists. split; [apply written_put|].
    apply Forall_cons; [one_line | apply Forall_nil].
  - injection H as <-. split; [exact Hkept|].
    eexists. split; [apply written_put|].
    apply Forall_cons; [one_line | apply Forall_nil].
  - injection H as <-.
    destruct (testCaseStarting_starts testInfo now self)
      as (W & _ & _ & _ & _ & N & _ & (_ & _ & F)).
    split.
    + split; [rewrite F; apply escape_noLineFeed|].
      rewrite N. exact (proj2 Hkept).
    + eexists. split; [exact W|].
      repeat (apply Forall_cons; [one_line|]). apply Forall_nil.
  - injection H as <-.
    destruct Hkept as [Hfull Hnames].
    destruct (testCaseEnded_written testCaseStats now self)
      as (W & _ & _ & _ & N).
    split.
    + split; [|now rewrite N].
      destruct testCaseStats as [info [|] [|]]; exact Hfull.
    + eexists. split; [exact W|].
      destruct (String.eqb (TestCaseStats.stdOut testCaseStats) EmptyString),
               (String.eqb (TestCaseStats.stdErr testCaseStats) EmptyString);
        cbn [app];
        repeat (apply Forall_cons; [one_line|]); apply Forall_nil.
  - injection H as <-.
    destruct (string_dec (m_lastTestCaseName self) (SectionInfo.name sectionInfo))
      as [Heq|Hne].
    + rewrite (proj1 (section_of_stored_name_is_skipped _ now _ Heq)).
      split; [exact Hkept|]. exists []. unfold written.
      rewrite app_nil_r. now split.
    + destruct (sectionStarting_opens sectionInfo now self Hne)
        as (N & _ & _ & _ & W & _ & (_ & _ & _ & F & _)).
      destruct Hkept as [Hfull Hnames]. split.
      * split; [now rewrite <- F|]. rewrite N.
        apply Forall_cons; [apply escape_noLineFeed | exact Hnames].
      * eexists. split; [exact W|].
        repeat (apply Forall_cons; [one_line|]). apply Forall_nil.
  - eapply sectionEnded_lines; eassumption.
  - eapply assertionEnded_lines; eassumption.
Qed.

Lemma run_writes_lines {helpers : ConsoleHelpers} :
  forall (events : list Event) (self after : TeamCityReporter),
    run events self = inr after ->
    keptNamesOnOneLine self ->
    Forall oneLine (written self) ->
    Forall oneLine (written after).
Proof.
  induction events as [|e events IH]; intros self after H Hkept Hlines;
    cbn [run ret] in H.
  - injection H as <-. exact Hlines.
  - destruct (handle e self) as [f|self1] eqn:He; [discriminate|].
    cbn [bind] in H.
    destruct (handle_writes_lines _ _ _ He Hkept) as (Hkept1 & new & W & Hnew).
    apply (IH self1 after H Hkept1). rewrite W.
    apply Forall_app. now split.
Qed.

(** X15.  One message per line: of all the lines a reporter has written
    since it was new, whatever the events and the texts in them, each ends
    in a line feed and holds no other line feed.  Every text that goes into
    a line has been through the escaper, the names kept for later messages
    included. *)
Theorem every_line_is_one_line {helpers : ConsoleHelpers} :
  forall (events : list Event) (config : IConfig.t) (headerPrinted : bool)
         (self : TeamCityReporter),
    run events (newReporter config headerPrinted) = inr self ->
    Forall oneLine (written self).
Proof.
  intros events config headerPrinted self Hrun.
  apply (run_writes_lines events _ self Hrun).
  - split; [reflexivity | constructor].
  - constructor.
Qed.

Lemma every_line_is_one_line_witness :
  exists after,
    run (helpers := plainHelpers) (oneSectionRun ("a" ++ chr LF ++ "b"))
        (newReporter noConfigName true) = inr after
    /\ Forall oneLine (written after).
Proof.
  assert (H : { after |
                run (helpers := plainHelpers)
                    (oneSectionRun ("a" ++ chr LF ++ "b"))
                    (newReporter noConfigName true) = inr after })
    by (eexists; vm_compute; reflexivity).
  destruct H as [after H]. exists after. split; [exact H|].
  exact (every_line_is_one_line (helpers := plainHelpers) _ _ _ _ H).
Defined.

(** ** The failure message *)

Lemma fold_left_quoted (infoMessages : list MessageInfo.t) :
  forall msg,
    fold_left
      (fun msg messageInfo =>
         msg ++ NL ++ "  " ++ chr DQUOTE ++ MessageInfo.message messageInfo
             ++ chr DQUOTE)
      infoMessages msg
    = msg ++ quotedMessages infoMessages.
Proof.
  unfold quotedMessages.
  induction infoMessages as [|m rest IH]; intros msg; cbn [fold_left map].
  - cbn [String.concat]. now rewrite append_nil_r.
  - rewrite IH. rewrite append_assoc. f_equal.
    destruct rest as [|m' rest]; cbn [map String.concat].
    + now rewrite !append_nil_r.
    + reflexivity.
Qed.

(** X16.  The failure message of a reported assertion, the header flag being
    set: the source location, a line feed, the text of the result kind, then
    [ with message:] for exactly one info message and [ with messages:] for
    more than one, and every info message on a line of its own in double
    quotes, in the order given.  Escaped, it is the text of the
    [result failed:] line and the message of the service message. *)
Theorem assertionEnded_failure_message {helpers : ConsoleHelpers} :
  forall (assertionStats : AssertionStats.t) (self : TeamCityReporter)
         (info : TestCaseInfo.t) (kind : string),
    let result := AssertionStats.assertionResult assertionStats in
    notOkOrSkipped assertionStats = true ->
    resultTypeText (AssertionResult.getResultType result) = inr kind ->
    currentTestCaseInfo self = Some info ->
    m_headerPrintedForThisSection self = true ->
    exists after,
      assertionEnded assertionStats self = inr after
      /\ written after
         = written self
           +++ reportedLines info (currentFlowId self)
                 (failureMessage assertionStats kind) result.
Proof.
  intros stats self info kind result Hnot Hkind Hinfo Hhdr.
  unfold assertionEnded. fold result.
  unfold notOkOrSkipped in Hnot. fold result in Hnot.
  rewrite Hnot, Hhdr, Hkind. cbn [negb bind ret].
  replace (currentTestCaseInfo (put _ (with_headerPrinted true self)))
    with (currentTestCaseInfo self) by reflexivity.
  rewrite Hinfo.
  replace (m_sectionNameStack (put _ (with_headerPrinted true self)))
    with (m_sectionNameStack self) by reflexivity.
  replace (m_lastTestCaseFullName (put _ (with_headerPrinted true self)))
    with (m_lastTestCaseFullName self) by reflexivity.
  fold (currentFlowId self).
  rewrite fold_left_quoted.
  set (located := (EmptyString
                   ++ streamLineInfo (AssertionResult.getSourceInfo result)
                   ++ NL) ++ kind).
  assert (Hmsg :
            (if (1 <? List.length (AssertionStats.infoMessages stats))%nat
             then
               (if (List.length (AssertionStats.infoMessages stats) =? 1)%nat
                then located ++ " with message:"
                else located) ++ " with messages:"
             else
               if (List.length (AssertionStats.infoMessages stats) =? 1)%nat
               then located ++ " with message:"
               else located)
            ++ quotedMessages (AssertionStats.infoMessages stats)
            = failureMessage stats kind).
  { unfold failureMessage, located. fold result.
    destruct (AssertionStats.infoMessages stats) as [|m1 [|m2 rest]];
      cbn [List.length Nat.eqb Nat.ltb Nat.leb];
      cbn [append]; rewrite ?append_assoc; reflexivity. }
  rewrite Hmsg. eexists. split; [reflexivity|].
  unfold reportedLines. fold result.
  destruct (ResultWas.eqb (AssertionResult.getResultType result)
                          ResultWas.ExplicitSkip);
    [|destruct (TestCaseInfo.okToFail info)]; stream_eq.
Qed.

Lemma assertionEnded_failure_message_witness :
  (notOkOrSkipped (assertion false ResultWas.ThrewException) = true
   /\ resultTypeText ResultWas.ThrewException = inr "unexpected exception"
   /\ currentTestCaseInfo insideT = Some (testCase "t")
   /\ m_headerPrintedForThisSection insideT = true)
  /\ exists after,
      assertionEnded (helpers := plainHelpers)
                     (assertion false ResultWas.ThrewException) insideT
      = inr after
      /\ written after
         = written insideT
           +++ reportedLines (testCase "t") (currentFlowId insideT)
                 (failureMessage (helpers := plainHelpers)
                    (assertion false ResultWas.ThrewException)
                    "unexpected exception")
                 (AssertionStats.assertionResult
                    (assertion false ResultWas.ThrewException)).
Proof.
  split; [repeat split|].
  exact (assertionEnded_failure_message
           (helpers := plainHelpers)
           (assertion false ResultWas.ThrewException) insideT (testCase "t")
           "unexpected exception" eq_refl eq_refl eq_refl eq_refl).
Defined.

(** ** A whole test case *)

(** X17.  The messages of a test case enclose everything written for its
    sections and assertions, well nested: first the [testStarted] message
    with the full name as name and flowId, last the [testFinished] message
    with the very same full name as name and flowId and with the time from
    the start of the test case as duration; in between as many [testStarted]
    as [testFinished] messages; and the three stacks are afterwards what
    they were before. *)
Theorem test_case_messages_enclose {helpers : ConsoleHelpers} :
  forall (testInfo : TestCaseInfo.t) (testCaseStats : TestCaseStats.t)
         (t0 t3 : N) (events : list Event) (self after : TeamCityReporter),
    wellNested events ->
    run (TestCaseStarting testInfo t0
         :: events ++ [ TestCaseEnded testCaseStats t3 ])%list self
    = inr after ->
    let full :=
      escape (testCaseStarting_className testInfo (m_config self)
              ++ escape (TestCaseInfo.name testInfo)) in
    let out := TestCaseStats.stdOut testCaseStats in
    let err := TestCaseStats.stdErr testCaseStats in
    exists between,
      written after
      = written self
        +++ [ "testCaseStarting:" ++ escape (TestCaseInfo.name testInfo)
              ++ " FullName:" ++ full ++ NL;
              "##teamcity[testStarted name='" ++ full ++ "' flowId='" ++ full
              ++ "' ]" ++ NL ]
        +++ between
        +++ [ "testCaseEnded:"
              ++ escape (TestCaseInfo.name
                           (TestCaseStats.testInfo testCaseStats))
              ++ " FullName:" ++ full ++ NL ]
        +++ (if String.eqb out EmptyString then []
             else [ "##teamcity[testStdOut name='" ++ full ++ "' out='"
                    ++ escape out ++ "' flowId='" ++ full ++ "']" ++ NL ])
        +++ (if String.eqb err EmptyString then []
             else [ "##teamcity[testStdErr name='" ++ full ++ "' out='"
                    ++ escape err ++ "' flowId='" ++ full ++ "']" ++ NL ])
        +++ [ "##teamcity[testFinished name='" ++ full ++ "' duration='"
              ++ streamUnsigned (t3 - t0) ++ "' flowId='" ++ full ++ "']"
              ++ NL ]
      /\ countVerb "testStarted" between = countVerb "testFinished" between
      /\ sameStacks self after
      /\ unflushed after = [].
Proof.
  intros testInfo stats t0 t3 events self after Hnested Hrun full out err.
  cbn [run handle bind ret] in Hrun. rewrite run_app in Hrun.
  destruct (testCaseStarting_starts testInfo t0 self)
    as (W1 & _ & T1 & V1 & TS1 & N1 & _ & (_ & _ & F1)).
  set (s1 := testCaseStarting testInfo t0 self) in *.
  destruct (run events s1) as [f|s2] eqn:H2; [discriminate|].
  cbn [bind run handle ret] in Hrun. injection Hrun as <-.
  destruct (wellNested_balanced events Hnested _ _ H2) as (between & Wb & Bb).
  destruct (wellNested_keeps_stacks events Hnested _ _ H2)
    as ((V2 & TS2 & N2) & (_ & _ & _ & F2 & M2)).
  destruct (testCaseEnded_written stats t3 s2) as (W3 & U3 & V3 & TS3 & N3).
  exists between. split; [|split; [exact Bb|split; [|exact U3]]].
  - rewrite W3, Wb, W1, <- F2, F1, <- M2, T1. fold full.
    rewrite <- !app_assoc. reflexivity.
  - unfold sameStacks. repeat split; congruence.
Qed.

Lemma test_case_messages_enclose_witness :
  exists after,
    (wellNested [ SectionStarting (section "a|b") 1;
                  SectionEnded (sectionEnd "a|b") 5 ]
     /\ run (helpers := plainHelpers)
            (TestCaseStarting (testCase "t") 0
             :: [ SectionStarting (section "a|b") 1;
                  SectionEnded (sectionEnd "a|b") 5 ]
             ++ [ TestCaseEnded (quietEnd "t") 9 ])%list
            (newReporter noConfigName true)
        = inr after)
    /\ sameStacks (newReporter noConfigName true) after.
Proof.
  assert (H1 : wellNested [ SectionStarting (section "a|b") 1;
                            SectionEnded (sectionEnd "a|b") 5 ])
    by exact (wellNested_section (section "a|b") 1 5 [] []
                                 wellNested_nil wellNested_nil).
  assert (H2 : { after |
                 run (helpers := plainHelpers)
                     (TestCaseStarting (testCase "t") 0
                      :: [ SectionStarting (section "a|b") 1;
                           SectionEnded (sectionEnd "a|b") 5 ]
                      ++ [ TestCaseEnded (quietEnd "t") 9 ])%list
                     (newReporter noConfigName true)
                 = inr after })
    by (eexists; vm_compute; reflexivity).
  destruct H2 as [after H2]. exists after. split; [auto|].
  destruct (test_case_messages_enclose
              (helpers := plainHelpers) (testCase "t") (quietEnd "t") 0 9
              [ SectionStarting (section "a|b") 1;
                SectionEnded (sectionEnd "a|b") 5 ]
              (newReporter noConfigName true) after H1 H2)
    as (between & _ & _ & Hstacks & _).
  exact Hstacks.
Defined.

(** * Whole runs, as the event source delivers them *)

(** ** The stacks and the header flag across test cases *)

Lemma handle_keeps_flag_set {helpers : ConsoleHelpers} :
  forall (e : Event) (self after : TeamCityReporter),
    handle e self = inr after ->
    m_headerPrintedForThisSection self = true ->
    m_headerPrintedForThisSection after = true.
Proof.
  intros e self after H Hf. destruct e; cbn [handle ret] in H.
  - injection H as <-. exact Hf.
  - injection H as <-. exact Hf.
  - injection H as <-. exact Hf.
  - injection H as <-. destruct testCaseStats as [info [|] [|]]; exact Hf.
  - injection H as <-. unfold sectionStarting.
    destruct (String.eqb _ _); [exact Hf | reflexivity].
  - destruct (sectionEnded_appends _ _ _ _ H) as (new & _ & _ & F & _).
    now rewrite F.
  - destruct (assertionEnded_appends _ _ _ H) as (new & _ & _ & _ & _ & Hno & Hyes).
    destruct (notOkOrSkipped assertionStats) eqn:Hq.
    + now apply Hyes.
    + destruct (Hno eq_refl) as [_ F]. now rewrite F.
Qed.

Lemma run_keeps_flag_set {helpers : ConsoleHelpers} :
  forall (events : list Event) (self after : TeamCityReporter),
    run events self = inr after ->
    m_headerPrintedForThisSection self = true ->
    m_headerPrintedForThisSection after = true.
Proof.
  induction events as [|e events IH]; intros self after H Hf;
    cbn [run ret] in H.
  - injection H as <-. exact Hf.
  - destruct (handle e self) as [f|self1] eqn:He; [discriminate|].
    cbn [bind] in H.
    eapply IH; [exact H|]. eapply handle_keeps_flag_set; eassumption.
Qed.

(** Whole test cases leave the three stacks as they found them: every
    section they opened they have closed. *)
Lemma wholeTestCases_keeps_stacks {helpers : ConsoleHelpers} :
  forall events, wholeTestCases events ->
  forall self after,
    run events self = inr after -> sameStacks self after.
Proof.
  induction 1 as [|runInfo rest Hrest IH|runStats rest Hrest IH
                  |testInfo stats t0 t1 body rest Hbody Hrest IH];
    intros self after Hrun.
  - injection Hrun as <-. now repeat split.
  - cbn [run handle bind ret] in Hrun. exact (IH _ _ Hrun).
  - cbn [run handle bind ret] in Hrun. exact (IH _ _ Hrun).
  - cbn [run handle bind ret] in Hrun. rewrite run_app in Hrun.
    destruct (testCaseStarting_starts testInfo t0 self)
      as (_ & _ & _ & V1 & T1 & N1 & _).
    set (s1 := testCaseStarting testInfo t0 self) in *.
    destruct (run body s1) as [f|s2] eqn:H2; [discriminate|].
    cbn [bind run handle ret] in Hrun.
    destruct (wellNested_keeps_stacks body Hbody _ _ H2) as ((V2 & T2 & N2) & _).
    destruct (testCaseEnded_written stats t1 s2) as (_ & _ & V3 & T3 & N3).
    destruct (IH _ _ Hrun) as (V4 & T4 & N4).
    unfold sameStacks. repeat split; congruence.
Qed.

(** C4, as the code has it.  Over a run of whole test cases from a new
    reporter, the section stack, the timer stack and the correlation-name
    stack are all empty between test cases and after every
    [testCaseStarting]: each test case has closed the sections it opened.
    The header flag is not cleared at the start of a test case:
    [testCaseStarting] leaves it as it was, and no handler clears it once it
    is set.  After every handler of any completed run from a new reporter the
    stacks have the same length. *)
Theorem stacks_empty_at_every_test_case_start {helpers : ConsoleHelpers} :
  (forall (cases : list Event) (config : IConfig.t) (headerPrinted : bool)
          (between : TeamCityReporter) (testInfo : TestCaseInfo.t) (now : N),
      wholeTestCases cases ->
      run cases (newReporter config headerPrinted) = inr between ->
      let started := testCaseStarting testInfo now between in
      noFrameOpen between
      /\ noFrameOpen started
      /\ m_headerPrintedForThisSection started
         = m_headerPrintedForThisSection between)
  /\ (forall (events : list Event) (self after : TeamCityReporter),
         run events self = inr after ->
         m_headerPrintedForThisSection self = true ->
         m_headerPrintedForThisSection after = true)
  /\ (forall (events : list Event) (config : IConfig.t) (headerPrinted : bool)
             (self : TeamCityReporter),
         run events (newReporter config headerPrinted) = inr self ->
         stacksAligned self).
Proof.
  split; [|split].
  - intros cases config headerPrinted between testInfo now Hcases Hrun started.
    destruct (wholeTestCases_keeps_stacks cases Hcases _ _ Hrun)
      as (V & T & N).
    cbn [newReporter m_sectionStack m_timerStack m_sectionNameStack] in V, T, N.
    assert (Hbetween : noFrameOpen between) by (repeat split; congruence).
    split; [exact Hbetween|]. split; [|reflexivity].
    destruct Hbetween as (V' & T' & N').
    destruct (testCaseStarting_starts testInfo now between)
      as (_ & _ & _ & V1 & T1 & N1 & _).
    fold started in V1, T1, N1.
    repeat split; congruence.
  - exact run_keeps_flag_set.
  - intros events config headerPrinted self Hrun.
    apply (run_keeps_alignment events _ _ Hrun). now split.
Qed.

Lemma stacks_empty_at_every_test_case_start_witness :
  exists between,
    (wholeTestCases deliveredTestCase
     /\ run (helpers := plainHelpers) deliveredTestCase
            (newReporter noConfigName false)
        = inr between)
    /\ noFrameOpen between
    /\ noFrameOpen (testCaseStarting (testCase "t2") 6 between)
    /\ m_headerPrintedForThisSection (testCaseStarting (testCase "t2") 6 between)
       = m_headerPrintedForThisSection between.
Proof.
  assert (H1 : wholeTestCases deliveredTestCase).
  { apply wholeTestCases_runStarting.
    apply (wholeTestCases_testCase (testCase "t1") (quietEnd "t1") 0 5
             [ SectionStarting (section "t1") 1;
               SectionStarting (section "s") 2;
               SectionEnded (sectionEnd "s") 3;
               SectionEnded (sectionEnd "t1") 4 ] []); [|constructor].
    apply (wellNested_section (section "t1") 1 4
             [ SectionStarting (section "s") 2;
               SectionEnded (sectionEnd "s") 3 ] []); [|constructor].
    apply (wellNested_section (section "s") 2 3 [] []); constructor. }
  assert (H2 : { between |
                 run (helpers := plainHelpers) deliveredTestCase
                     (newReporter noConfigName false)
                 = inr between })
    by (eexists; vm_compute; reflexivity).
  destruct H2 as [between H2]. exists between. split; [auto|].
  exact (proj1 (stacks_empty_at_every_test_case_start (helpers := plainHelpers))
           deliveredTestCase noConfigName false between (testCase "t2") 6%N
           H1 H2).
Defined.

(** C4, as the specification has it, fails.  After the whole test case [t1]
    with its section [s], delivered to a new reporter whose header flag is
    down, [testCaseStarting] for [t2] leaves the three stacks empty and the
    header flag set: the section start of [s] set it and nothing cleared
    it. *)
Lemma second_test_case_starts_with_flag_set :
  exists between,
    run (helpers := plainHelpers) deliveredTestCase
        (newReporter noConfigName false)
    = inr between
    /\ noFrameOpen (testCaseStarting (testCase "t2") 6 between)
    /\ m_headerPrintedForThisSection (testCaseStarting (testCase "t2") 6 between)
       = true
    /\ ~ resetForTestCase (testCaseStarting (testCase "t2") 6 between).
Proof.
  eexists. split; [vm_compute; reflexivity|].
  split; [now repeat split|]. split; [reflexivity|].
  intros (_ & _ & _ & H). discriminate H.
Qed.

(** ** The first failing assertion of a test case without sections *)

(** C5, on the code.  A test case whose name the escaper leaves as it is,
    delivered to a new reporter whose header flag is down: the section named
    as the test case is skipped, so the section stack is empty when the first
    assertion that is not ok, or is an explicit skip, ends.  [assertionEnded]
    then goes to print the section header and stops at the assertion of
    [printSectionHeader] that the section stack is not empty.  No service
    message is written for the assertion. *)
Theorem first_failing_assertion_stops_at_the_header {helpers : ConsoleHelpers} :
  forall (config : IConfig.t) (testInfo : TestCaseInfo.t)
         (lineInfo : SourceLineInfo.t) (t0 t1 : N)
         (assertionStats : AssertionStats.t),
    escape (TestCaseInfo.name testInfo) = TestCaseInfo.name testInfo ->
    notOkOrSkipped assertionStats = true ->
    run [ TestCaseStarting testInfo t0;
          SectionStarting {| SectionInfo.name := TestCaseInfo.name testInfo;
                             SectionInfo.lineInfo := lineInfo |} t1;
          AssertionEnded assertionStats ]
        (newReporter config false)
    = inl (AssertFailed "!m_sectionStack.empty()").
Proof.
  intros config testInfo lineInfo t0 t1 stats Hname Hq.
  cbn [run handle bind ret].
  set (s1 := testCaseStarting testInfo t0 (newReporter config false)).
  assert (L1 : m_lastTestCaseName s1 = escape (TestCaseInfo.name testInfo))
    by reflexivity.
  rewrite Hname in L1.
  destruct (section_of_stored_name_is_skipped
              {| SectionInfo.name := TestCaseInfo.name testInfo;
                 SectionInfo.lineInfo := lineInfo |} t1 s1 L1) as [E1 _].
  rewrite E1.
  rewrite (assertionEnded_header_needs_section stats s1 Hq);
    reflexivity.
Qed.

Lemma first_failing_assertion_stops_at_the_header_witness :
  (escape (TestCaseInfo.name (testCase "t")) = TestCaseInfo.name (testCase "t")
   /\ notOkOrSkipped (assertion false ResultWas.ExpressionFailed) = true)
  /\ run (helpers := plainHelpers) plainFailingTestCase
         (newReporter noConfigName false)
     = inl (AssertFailed "!m_sectionStack.empty()").
Proof.
  assert (H1 : escape (TestCaseInfo.name (testCase "t"))
               = TestCaseInfo.name (testCase "t")) by reflexivity.
  assert (H2 : notOkOrSkipped (assertion false ResultWas.ExpressionFailed)
               = true) by reflexivity.
  split; [auto|].
  exact (first_failing_assertion_stops_at_the_header
           (helpers := plainHelpers) noConfigName (testCase "t") (here 2) 0 1
           (assertion false ResultWas.ExpressionFailed) H1 H2).
Defined.

(** ** A test case with one section *)








(** A test case whose name the escaper changes: the section named as the
    test case is not skipped, and the section [a] inside it gets its id from
    the correlation name of that section, not from the full name of the
    test case. *)
Example delivered_section_under_a_quoted_test_case :
  exists after,
    run (helpers := plainHelpers) (deliveredOneSection "it's" "a")
        (newReporter noConfigName false) = inr after
    /\ written after
       = [ "testCaseStarting:it`s FullName:global.it`s" ++ NL;
           "##teamcity[testStarted name='global.it`s' flowId='global.it`s' ]"
           ++ NL;
           "sectionStarting:global.it`s/it`s" ++ NL;
           "##teamcity[testStarted name='global.it`s/it`s' flowId='global.it`s/it`s']"
           ++ NL;
           "sectionStarting:global.it`s/it`s/a" ++ NL;
           "##teamcity[testStarted name='global.it`s/it`s/a' flowId='global.it`s/it`s/a']"
           ++ NL;
           "sectionEnded:global.it`s/it`s/a" ++ NL;
           "##teamcity[testFinished name='global.it`s/it`s/a' duration='3' flowId='global.it`s/it`s/a']"
           ++ NL;
           "sectionEnded:global.it`s/it`s" ++ NL;
           "##teamcity[testFinished name='global.it`s/it`s' duration='5' flowId='global.it`s/it`s']"
           ++ NL;
           "testCaseEnded:it`s FullName:global.it`s" ++ NL;
           "##teamcity[testFinished name='global.it`s' duration='9' flowId='global.it`s']"
           ++ NL ].
Proof. eexists. split; [vm_compute; reflexivity | reflexivity]. Qed.
